(** * Video proctoring system: signal analysis and session integrity engine

    A shallow embedding of the two source files that decide the behaviour of
    the engine,

    - [frontend/src/hooks/useFocusDetection.js]   (module [FocusDetection])
    - [frontend/src/components/Dashboard/Dashboard.jsx]   (module [Dashboard])

    followed by the properties of the specification, stated over these
    definitions.

    Conventions.  Times are milliseconds since the epoch, as returned by
    [Date.now()] and [Date.prototype.getTime()], and are integers ([Z]); so are
    the durations and the focus score that the code computes from them by
    subtraction.  A string is held as its UTF-8 bytes, and the confidence of
    a detection is a double.  React state is passed explicitly: a handler
    receives the state object that is in its scope and returns the object it
    hands to the setter.  Values of [useRef] cells are fields of a record that
    is threaded through.  Calls to the collaborators (camera, recorder, API
    service, [alert], [console.error], timers) are recorded in a trace of
    [Effect]s, and the outcome of every call that can fail is an input. *)

From Stdlib Require Import ZArith QArith Lia DecimalString.
From Stdlib Require DecimalPos DecimalZ.
From Stdlib Require PrimFloat SpecFloat FloatOps.
From stdpp Require Import gmap strings list.

Open Scope Z_scope.

(** ** The focus-detection hook *)

Module FocusDetection.

(** The object held by [useState] in the hook (lines 4-12). *)
Record FocusData := {
  faceDetected : bool;
  lookingAtScreen : bool;
  focusScore : Z;
  focusLostDuration : Z;
  noFaceDuration : Z;
  multipleFaces : bool;
  eyeClosure : bool
}.

Definition initialFocusData : FocusData :=
  {| faceDetected := false; lookingAtScreen := false; focusScore := 0;
     focusLostDuration := 0; noFaceDuration := 0;
     multipleFaces := false; eyeClosure := false |}.

(** Assignments [newFocusData.field = v] on the copy made by
    [{ ...focusData }]. *)
Definition set_faceDetected (v : bool) (d : FocusData) : FocusData :=
  {| faceDetected := v; lookingAtScreen := lookingAtScreen d;
     focusScore := focusScore d; focusLostDuration := focusLostDuration d;
     noFaceDuration := noFaceDuration d; multipleFaces := multipleFaces d;
     eyeClosure := eyeClosure d |}.

Definition set_lookingAtScreen (v : bool) (d : FocusData) : FocusData :=
  {| faceDetected := faceDetected d; lookingAtScreen := v;
     focusScore := focusScore d; focusLostDuration := focusLostDuration d;
     noFaceDuration := noFaceDuration d; multipleFaces := multipleFaces d;
     eyeClosure := eyeClosure d |}.

Definition set_focusScore (v : Z) (d : FocusData) : FocusData :=
  {| faceDetected := faceDetected d; lookingAtScreen := lookingAtScreen d;
     focusScore := v; focusLostDuration := focusLostDuration d;
     noFaceDuration := noFaceDuration d; multipleFaces := multipleFaces d;
     eyeClosure := eyeClosure d |}.

Definition set_focusLostDuration (v : Z) (d : FocusData) : FocusData :=
  {| faceDetected := faceDetected d; lookingAtScreen := lookingAtScreen d;
     focusScore := focusScore d; focusLostDuration := v;
     noFaceDuration := noFaceDuration d; multipleFaces := multipleFaces d;
     eyeClosure := eyeClosure d |}.

Definition set_noFaceDuration (v : Z) (d : FocusData) : FocusData :=
  {| faceDetected := faceDetected d; lookingAtScreen := lookingAtScreen d;
     focusScore := focusScore d; focusLostDuration := focusLostDuration d;
     noFaceDuration := v; multipleFaces := multipleFaces d;
     eyeClosure := eyeClosure d |}.

Definition set_multipleFaces (v : bool) (d : FocusData) : FocusData :=
  {| faceDetected := faceDetected d; lookingAtScreen := lookingAtScreen d;
     focusScore := focusScore d; focusLostDuration := focusLostDuration d;
     noFaceDuration := noFaceDuration d; multipleFaces := v;
     eyeClosure := eyeClosure d |}.

Definition set_eyeClosure (v : bool) (d : FocusData) : FocusData :=
  {| faceDetected := faceDetected d; lookingAtScreen := lookingAtScreen d;
     focusScore := focusScore d; focusLostDuration := focusLostDuration d;
     noFaceDuration := noFaceDuration d; multipleFaces := multipleFaces d;
     eyeClosure := v |}.

(** The two [useRef] cells of the hook (lines 14 and 16). *)
Record Refs := {
  lastFocusTime : Z;
  lastFaceTime : Z
}.

(** What [calculateGaze] returns (line 132). *)
Record GazeData := {
  gaze_lookingAtScreen : bool;
  gaze_eyeClosure : bool
}.

(** [calculateFocusScore] (lines 142-151): the score starts at 100, each [if]
    subtracts its penalty, and the result is floored at 0. *)
Definition calculateFocusScore (data : FocusData) : Z :=
  let score := 100 in
  let score := if negb (faceDetected data) then score - 50 else score in
  let score := if negb (lookingAtScreen data) then score - 20 else score in
  let score := if multipleFaces data then score - 30 else score in
  let score := if eyeClosure data then score - 15 else score in
  let score := if 5000 <? focusLostDuration data then score - 20 else score in
  let score := if 10000 <? noFaceDuration data then score - 40 else score in
  Z.max 0 score.

(** The penalty table in the words of the specification: one entry per
    condition, each applicable entry counted once. *)
Definition penalties (data : FocusData) : list (bool * Z) :=
  [ (negb (faceDetected data), 50);
    (negb (lookingAtScreen data), 20);
    (multipleFaces data, 30);
    (eyeClosure data, 15);
    (bool_decide (focusLostDuration data > 5000), 20);
    (bool_decide (noFaceDuration data > 10000), 40) ].

Definition penalty_sum (data : FocusData) : Z :=
  foldr (fun (p : bool * Z) acc => if fst p then snd p + acc else acc) 0
        (penalties data).

Section Handler.

(** The landmark set of one face and the gaze estimate computed from it.
    [calculateGaze] and [calculateEAR] (lines 113-141) work on floating-point
    coordinates with [Math.sqrt]; the handler only consumes the two booleans
    they return, so the estimate is a parameter here. *)
Variable Landmarks : Type.
Variable calculateGaze : Landmarks -> GazeData.

(** The argument of the handler: [results.multiFaceLandmarks], which may be
    missing. *)
Record Results := {
  multiFaceLandmarks : option (list Landmarks)
}.

Definition faceCount (results : Results) : nat :=
  match multiFaceLandmarks results with
  | Some faces => length faces
  | None => 0%nat
  end.

(** [onFaceResults] (lines 38-75).  [ready] tells whether the canvas and the
    video element are mounted (line 41); [focusData] is the state object in
    the scope of the handler, the one it copies at line 47; [currentTime] is
    the reading of [Date.now()] at line 46.  The result is the object passed
    to [setFocusData] together with the new contents of the two refs, or
    [None] when the handler returns at line 41.  Drawing on the canvas is not
    modelled. *)
Definition onFaceResults (ready : bool) (focusData : FocusData) (refs : Refs)
    (results : Results) (currentTime : Z) : option (FocusData * Refs) :=
  if negb ready then None else
  let newFocusData := focusData in
  let '(newFocusData, refs) :=
    match multiFaceLandmarks results with
    | Some (landmarks :: others) =>
        let newFocusData := set_faceDetected true newFocusData in
        let newFocusData :=
          set_multipleFaces (1 <? length (landmarks :: others))%nat newFocusData in
        let newFocusData := set_noFaceDuration 0 newFocusData in
        let refs := {| lastFocusTime := lastFocusTime refs;
                       lastFaceTime := currentTime |} in
        let gazeData := calculateGaze landmarks in
        let newFocusData :=
          set_lookingAtScreen (gaze_lookingAtScreen gazeData) newFocusData in
        let newFocusData :=
          set_eyeClosure (gaze_eyeClosure gazeData) newFocusData in
        if gaze_lookingAtScreen gazeData then
          (set_focusLostDuration 0 newFocusData,
           {| lastFocusTime := currentTime; lastFaceTime := lastFaceTime refs |})
        else
          (set_focusLostDuration (currentTime - lastFocusTime refs) newFocusData,
           refs)
    | _ =>
        let newFocusData := set_faceDetected false newFocusData in
        let newFocusData := set_lookingAtScreen false newFocusData in
        let newFocusData :=
          set_noFaceDuration (currentTime - lastFaceTime refs) newFocusData in
        let newFocusData :=
          set_focusLostDuration (currentTime - lastFocusTime refs) newFocusData in
        (newFocusData, refs)
    end in
  Some (set_focusScore (calculateFocusScore newFocusData) newFocusData, refs).

End Handler.

Arguments multiFaceLandmarks {Landmarks} _.
Arguments faceCount {Landmarks} results.
Arguments onFaceResults {Landmarks} calculateGaze ready focusData refs
  results currentTime.

(** *** The handler that FaceMesh calls

    The effect of lines 17-37 has an empty dependency list: it runs once,
    after the first render, and the [onFaceResults] that it passes to
    [faceMesh.onResults] at line 30 is the function of that render.  The
    functions of later renders are passed to nobody.  In every call that
    FaceMesh makes, [focusData] is therefore the state of the first render,
    the object of lines 4-12, while the two refs are the same cells in every
    render. *)
Definition registeredHandler {Landmarks : Type}
    (calculateGaze : Landmarks -> GazeData) (ready : bool) (refs : Refs)
    (results : Results Landmarks) (currentTime : Z)
    : option (FocusData * Refs) :=
  onFaceResults calculateGaze ready initialFocusData refs results currentTime.

(** The hook between two frames: the focus state that [useState] holds, which
    is what the hook returns to the component, and the two refs. *)
Record Hook := {
  stored : FocusData;
  hookRefs : Refs
}.

(** One frame arrives: the registered handler runs, and the object it passes
    to [setFocusData] replaces the stored state. *)
Definition receive {Landmarks : Type} (calculateGaze : Landmarks -> GazeData)
    (ready : bool) (hook : Hook) (results : Results Landmarks)
    (currentTime : Z) : Hook :=
  match registeredHandler calculateGaze ready (hookRefs hook)
          results currentTime with
  | Some (newFocusData, refs) => {| stored := newFocusData; hookRefs := refs |}
  | None => hook
  end.

End FocusDetection.

(** ** The dashboard component *)

Module Dashboard.

Import FocusDetection.

(** *** Data *)

(** One element of [objectData.detectedObjects].  The hook that produces the
    list is outside of the two files; the component reads the fields [class]
    and [confidence] (a number, that is a double). *)
Record Detection := {
  class : string;
  confidence : PrimFloat.float;
  bbox : list Q
}.

(** The [data] field of an event is the focus state or the detection that
    caused it. *)
Inductive EventData :=
| FocusPayload (focusData : FocusData)
| ObjectPayload (obj : Detection).

(** The values of the [type] property: the four string literals that the
    component puts into events and the fifth one that [endSession] counts.
    A constructor stands for the string of its name. *)
Inductive EventType :=
| FOCUS_LOST
| NO_FACE
| MULTIPLE_FACES
| EYE_CLOSURE
| SUSPICIOUS_OBJECT.

#[global] Instance EventType_eq_dec : EqDecision EventType.
Proof. solve_decision. Defined.

#[global] Instance EventType_countable : Countable EventType.
Proof.
  refine (inj_countable'
            (fun t => match t with
                      | FOCUS_LOST => 0%nat
                      | NO_FACE => 1%nat
                      | MULTIPLE_FACES => 2%nat
                      | EYE_CLOSURE => 3%nat
                      | SUSPICIOUS_OBJECT => 4%nat
                      end)
            (fun n => match n with
                      | 0%nat => FOCUS_LOST
                      | 1%nat => NO_FACE
                      | 2%nat => MULTIPLE_FACES
                      | 3%nat => EYE_CLOSURE
                      | _ => SUSPICIOUS_OBJECT
                      end) _).
  intros []; reflexivity.
Defined.

(** The object literal passed to [addEvent]. *)
Record Event := {
  type : EventType;
  severity : string;
  message : string;
  data : EventData
}.

(** [newEvent] (lines 130-134): the event with its two stamps.  The ISO
    string of line 132 is kept as the time value it prints; [sessionTime] is
    [None] for the [NaN] that results when no start time is set. *)
Record LoggedEvent := {
  event : Event;
  timestamp : Z;
  sessionTime : option Z
}.

Record FocusSummary := {
  focusLostCount : nat;
  noFaceCount : nat;
  multipleFacesCount : nat;
  eyeClosureCount : nat
}.

Record ObjectSummary := {
  totalDetections : nat;
  items : list string
}.

(** [sessionData] (lines 88-105). *)
Record SessionData := {
  sd_sessionId : option string;
  sd_candidateName : string;
  startTime : Z;
  endTime : Z;
  duration : Q;
  sd_events : list LoggedEvent;
  focusSummary : FocusSummary;
  objectSummary : ObjectSummary
}.

Inductive Loop := DetectionLoop | TimerLoop.

(** Calls that leave the component. *)
Inductive Effect :=
| Alert (msg : string)
| ConsoleError (label error : string)
| StartCamera
| StartRecording
| StopRecording
| StopCamera
| ApiCreateSession (name : string) (start : Z)
| ApiLogEvent (sessionId : string) (newEvent : LoggedEvent)
| ApiEndSession (sessionId : option string) (sessionData : SessionData)
| OnSessionComplete (sessionData : SessionData)
| SetInterval (handle : Z) (loop : Loop)
| ClearInterval (handle : option Z).

(** The [useState] cells (lines 11-16) and the refs (lines 17, 18, 119) of
    the component. *)
Record State := {
  isSessionActive : bool;
  candidateName : string;
  sessionId : option string;
  sessionStartTime : option Z;
  events : list LoggedEvent;
  sessionTimer : Z;
  intervalRef : option Z;
  timerIntervalRef : option Z;
  lastEventTimeRef : gmap EventType Z
}.

Definition initialState : State :=
  {| isSessionActive := false; candidateName := ""; sessionId := None;
     sessionStartTime := None; events := []; sessionTimer := 0;
     intervalRef := None; timerIntervalRef := None; lastEventTimeRef := ∅ |}.

Definition setIsSessionActive (v : bool) (st : State) : State :=
  {| isSessionActive := v; candidateName := candidateName st;
     sessionId := sessionId st; sessionStartTime := sessionStartTime st;
     events := events st; sessionTimer := sessionTimer st;
     intervalRef := intervalRef st; timerIntervalRef := timerIntervalRef st;
     lastEventTimeRef := lastEventTimeRef st |}.

Definition setCandidateName (v : string) (st : State) : State :=
  {| isSessionActive := isSessionActive st; candidateName := v;
     sessionId := sessionId st; sessionStartTime := sessionStartTime st;
     events := events st; sessionTimer := sessionTimer st;
     intervalRef := intervalRef st; timerIntervalRef := timerIntervalRef st;
     lastEventTimeRef := lastEventTimeRef st |}.

Definition setSessionId (v : option string) (st : State) : State :=
  {| isSessionActive := isSessionActive st; candidateName := candidateName st;
     sessionId := v; sessionStartTime := sessionStartTime st;
     events := events st; sessionTimer := sessionTimer st;
     intervalRef := intervalRef st; timerIntervalRef := timerIntervalRef st;
     lastEventTimeRef := lastEventTimeRef st |}.

Definition setSessionStartTime (v : option Z) (st : State) : State :=
  {| isSessionActive := isSessionActive st; candidateName := candidateName st;
     sessionId := sessionId st; sessionStartTime := v;
     events := events st; sessionTimer := sessionTimer st;
     intervalRef := intervalRef st; timerIntervalRef := timerIntervalRef st;
     lastEventTimeRef := lastEventTimeRef st |}.

(** [setEvents] and [setSessionTimer] take the updater function, as at lines
    135 and 69. *)
Definition setEvents (f : list LoggedEvent -> list LoggedEvent) (st : State)
    : State :=
  {| isSessionActive := isSessionActive st; candidateName := candidateName st;
     sessionId := sessionId st; sessionStartTime := sessionStartTime st;
     events := f (events st); sessionTimer := sessionTimer st;
     intervalRef := intervalRef st; timerIntervalRef := timerIntervalRef st;
     lastEventTimeRef := lastEventTimeRef st |}.

Definition setSessionTimer (f : Z -> Z) (st : State) : State :=
  {| isSessionActive := isSessionActive st; candidateName := candidateName st;
     sessionId := sessionId st; sessionStartTime := sessionStartTime st;
     events := events st; sessionTimer := f (sessionTimer st);
     intervalRef := intervalRef st; timerIntervalRef := timerIntervalRef st;
     lastEventTimeRef := lastEventTimeRef st |}.

Definition set_intervalRef (v : option Z) (st : State) : State :=
  {| isSessionActive := isSessionActive st; candidateName := candidateName st;
     sessionId := sessionId st; sessionStartTime := sessionStartTime st;
     events := events st; sessionTimer := sessionTimer st;
     intervalRef := v; timerIntervalRef := timerIntervalRef st;
     lastEventTimeRef := lastEventTimeRef st |}.

Definition set_timerIntervalRef (v : option Z) (st : State) : State :=
  {| isSessionActive := isSessionActive st; candidateName := candidateName st;
     sessionId := sessionId st; sessionStartTime := sessionStartTime st;
     events := events st; sessionTimer := sessionTimer st;
     intervalRef := intervalRef st; timerIntervalRef := v;
     lastEventTimeRef := lastEventTimeRef st |}.

Definition set_lastEventTimeRef (v : gmap EventType Z) (st : State) : State :=
  {| isSessionActive := isSessionActive st; candidateName := candidateName st;
     sessionId := sessionId st; sessionStartTime := sessionStartTime st;
     events := events st; sessionTimer := sessionTimer st;
     intervalRef := intervalRef st; timerIntervalRef := timerIntervalRef st;
     lastEventTimeRef := v |}.

(** *** Sequencing with exceptions

    A handler is a function of the state that yields the state it leaves
    behind, the trace of outside calls it made and either a value or the
    error that was thrown.  State updates made before a throw stay. *)
Definition M (A : Type) : Type := State -> (string + A) * State * list Effect.

Definition ret {A} (a : A) : M A := fun st => (inr a, st, []).

Definition throw {A} (error : string) : M A := fun st => (inl error, st, []).

Definition bind {A B} (m : M A) (k : A -> M B) : M B :=
  fun st =>
    match m st with
    | (inl error, st1, tr1) => (inl error, st1, tr1)
    | (inr a, st1, tr1) =>
        match k a st1 with
        | (r, st2, tr2) => (r, st2, tr1 ++ tr2)
        end
    end.

Notation "'let*' x := m 'in' k" := (bind m (fun x => k))
  (at level 10, x pattern, m at level 100, k at level 200).
Notation "m ;;; k" := (bind m (fun _ => k))
  (at level 100, right associativity).

Definition get : M State := fun st => (inr st, st, []).

Definition modify (f : State -> State) : M unit := fun st => (inr tt, f st, []).

Definition emit (e : Effect) : M unit := fun st => (inr tt, st, [e]).

(** What a call to a collaborator came to, as the calling handler sees it:
    [Resolved a] lets the handler go on with [a], [Rejected error] throws
    [error] in the handler. *)
Inductive Outcome (A : Type) :=
| Resolved (a : A)
| Rejected (error : string).

Arguments Resolved {A} a.
Arguments Rejected {A} error.

(** [await f(...)]: the handler goes on when the call returned a value or a
    promise that resolved; it throws when the call threw or the promise was
    rejected. *)
Definition call {A} (e : Effect) (o : Outcome A) : M A :=
  fun st =>
    match o with
    | Resolved a => (inr a, st, [e])
    | Rejected error => (inl error, st, [e])
    end.

(** [f(...)] as a statement, not awaited: what the call returns is dropped.
    The handler throws only when the call itself threw; when the call
    returned, the outcome is [Resolved tt], also for a promise that is
    rejected later, which nothing in the handler observes. *)
Definition invoke (e : Effect) (o : Outcome unit) : M unit :=
  fun st =>
    match o with
    | Resolved _ => (inr tt, st, [e])
    | Rejected error => (inl error, st, [e])
    end.

Definition try_catch {A} (body : M A) (handler : string -> M A) : M A :=
  fun st =>
    match body st with
    | (inl error, st1, tr1) =>
        match handler error st1 with
        | (r, st2, tr2) => (r, st2, tr1 ++ tr2)
        end
    | r => r
    end.

(** The state a handler leaves behind and the calls it made. *)
Definition state_after {A} (m : M A) (st : State) : State := snd (fst (m st)).

Definition trace_of {A} (m : M A) (st : State) : list Effect := snd (m st).

(** [hoare P m Q]: from a state with [P] the handler [m] leaves a state with
    [Q], whether it returns or throws. *)
Definition hoare {A} (P : State -> Prop) (m : M A) (Q : State -> Prop) : Prop :=
  forall st, P st -> Q (state_after m st).

(** *** JavaScript helpers *)

(** [String.prototype.trim] removes from both ends the code points that
    ECMAScript calls WhiteSpace and LineTerminator: U+0009 to U+000D, U+0020,
    U+00A0, U+1680, U+2000 to U+200A, U+2028, U+2029, U+202F, U+205F, U+3000
    and U+FEFF.  A [string] holds the UTF-8 bytes of the program's string, so
    each of them is a group of one, two or three bytes. *)
Definition byte_of (c : Ascii.ascii) : nat := Ascii.nat_of_ascii c.

(** U+0009 to U+000D and U+0020. *)
Definition is_whitespace (c : Ascii.ascii) : bool :=
  let n := byte_of c in
  ((9 <=? n) && (n <=? 13) || (n =? 32))%nat.

(** U+00A0, the bytes C2 A0. *)
Definition is_whitespace2 (c1 c2 : Ascii.ascii) : bool :=
  ((byte_of c1 =? 194) && (byte_of c2 =? 160))%nat.

(** U+1680 (E1 9A 80); U+2000 to U+200A, U+2028, U+2029 and U+202F
    (E2 80 80 to E2 80 8A, E2 80 A8, E2 80 A9, E2 80 AF); U+205F (E2 81 9F);
    U+3000 (E3 80 80); U+FEFF (EF BB BF). *)
Definition is_whitespace3 (c1 c2 c3 : Ascii.ascii) : bool :=
  let n1 := byte_of c1 in
  let n2 := byte_of c2 in
  let n3 := byte_of c3 in
  ((n1 =? 225) && (n2 =? 154) && (n3 =? 128)
   || (n1 =? 226) && (n2 =? 128)
      && ((128 <=? n3) && (n3 <=? 138) || (n3 =? 168) || (n3 =? 169) || (n3 =? 175))
   || (n1 =? 226) && (n2 =? 129) && (n3 =? 159)
   || (n1 =? 227) && (n2 =? 128) && (n3 =? 128)
   || (n1 =? 239) && (n2 =? 187) && (n3 =? 191))%nat.

Fixpoint trimStart (s : string) : string :=
  match s with
  | EmptyString => EmptyString
  | String c1 s1 =>
      if is_whitespace c1 then trimStart s1
      else
        match s1 with
        | EmptyString => s
        | String c2 s2 =>
            if is_whitespace2 c1 c2 then trimStart s2
            else
              match s2 with
              | EmptyString => s
              | String c3 s3 => if is_whitespace3 c1 c2 c3 then trimStart s3 else s
              end
        end
  end.

(** A string of white space only. *)
Definition is_blank (s : string) : bool :=
  match trimStart s with
  | EmptyString => true
  | String _ _ => false
  end.

(** The string up to the white space that it ends with.  A suffix that starts
    inside a group of bytes is never [is_blank], since no group starts with a
    continuation byte. *)
Fixpoint trimEnd (s : string) : string :=
  match s with
  | EmptyString => EmptyString
  | String c s' => if is_blank s then EmptyString else String c (trimEnd s')
  end.

Definition trim (s : string) : string := trimEnd (trimStart s).

(** Truthiness of a string: every string but the empty one. *)
Definition truthy (s : string) : bool := bool_decide (s ≠ "").

(** [v || 0] for a property that may be missing: a missing property and a
    stored [0] both give [0]. *)
Definition or_zero (v : option Z) : Z :=
  match v with
  | Some t => if t =? 0 then 0 else t
  | None => 0
  end.

(** [Math.round(d / 1000)] for an integer [d]: the nearest integer, a tie
    going up. *)
Definition round_seconds (d : Z) : Z := (d + 500) / 1000.

Definition show (n : Z) : string := NilZero.string_of_int (Z.to_int n).

(** Numbers as the program has them: doubles, with the operations of
    IEEE 754 binary64. *)
Module Export JsNumber.

Import PrimFloat SpecFloat FloatOps.

(** What [Math.round] returns: [NaN], an infinity, or a double whose value is
    an integer. *)
Inductive Rounded :=
| NotANumber
| Infinite (negative : bool)
| Integer (n : Z).

(** [Math.round(x)]: the integer nearest to the value of [x], a tie going
    towards plus infinity.  The value of a finite double is [m * 2 ^ e], and
    that integer is the floor of the value plus one half, computed exactly. *)
Definition Math_round (x : float) : Rounded :=
  match Prim2SF x with
  | S754_nan => NotANumber
  | S754_infinity negative => Infinite negative
  | S754_zero _ => Integer 0
  | S754_finite negative m e =>
      let sm := if negative then Z.neg m else Z.pos m in
      Integer (if 0 <=? e then sm * 2 ^ e
               else (2 * sm + 2 ^ (- e)) / (2 * 2 ^ (- e)))
  end.

(** The double that a positive integer converts to (to nearest, ties to
    even), as its value; [None] beyond the largest double. *)
Definition to_double (v : Z) : option Z :=
  match binary_normalize 53 1024 v 0 false with
  | S754_finite false m e => Some (Z.pos m * 2 ^ e)
  | _ => None
  end.

Definition digit_count (v : Z) : Z := Z.of_nat (String.length (show v)).

(** The number with [k] significant digits that converts to the double [n]
    and is nearest to it, if there is one: it is one of the two numbers of
    that shape around [n]; of two equally near ones the one with the even
    last digit. *)
Definition nearest_with_digits (n k : Z) : option Z :=
  let scale := 10 ^ (digit_count n - k) in
  let below := n / scale * scale in
  let above := below + scale in
  let fits v := bool_decide (to_double v = Some n) in
  match fits below, fits above with
  | true, true =>
      if n - below <? above - n then Some below
      else if above - n <? n - below then Some above
      else if Z.even (below / scale) then Some below else Some above
  | true, false => Some below
  | false, true => Some above
  | false, false => None
  end.

Fixpoint shortest_from (n : Z) (k : Z) (fuel : nat) : Z :=
  match fuel with
  | O => n
  | S fuel' =>
      match nearest_with_digits n k with
      | Some v => v
      | None => shortest_from n (k + 1) fuel'
      end
  end.

(** The number with the fewest significant digits that converts to the
    double [n], a positive integer.  Up to [2 ^ 53] every integer is a
    double, so only [n] itself converts to [n]. *)
Definition shortest_decimal (n : Z) : Z :=
  if n <=? 2 ^ 53 then n else shortest_from n 1 (Z.to_nat (digit_count n - 1)).

Fixpoint strip_zeros (fuel : nat) (v : Z) : Z :=
  match fuel with
  | O => v
  | S fuel' =>
      if (v mod 10 =? 0) && negb (v =? 0) then strip_zeros fuel' (v / 10) else v
  end.

(** [Number::toString] of a double whose value is the integer [n >= 0]: the
    digits of [shortest_decimal n], written out below [10 ^ 21] and with an exponent
    from there on. *)
Definition natural_text (n : Z) : string :=
  let v := shortest_decimal n in
  if v <? 10 ^ 21 then show v
  else
    match show (strip_zeros (Z.to_nat (digit_count v)) v) with
    | String d EmptyString => String d EmptyString
    | String d ds => String d ("." +:+ ds)
    | EmptyString => EmptyString
    end +:+ "e+" +:+ show (digit_count v - 1).

(** The text a template literal puts in for [Math.round(...)]. *)
Definition toString (r : Rounded) : string :=
  match r with
  | NotANumber => "NaN"
  | Infinite false => "Infinity"
  | Infinite true => "-Infinity"
  | Integer n => if n <? 0 then "-" +:+ natural_text (- n) else natural_text n
  end.

(** [Math.round(c * 100)] (line 184): the product is the double nearest to
    the exact one, and that double is rounded. *)
Definition round_percent (c : float) : Rounded :=
  Math_round (mul c (SF2Prim (binary_normalize 53 1024 100 0 false))).

(** The double nearest to [n / d], which is what a decimal literal with
    that value denotes; [n] and [d] are integers that are doubles. *)
Definition ratio (n d : Z) : float :=
  div (SF2Prim (binary_normalize 53 1024 n 0 false))
      (SF2Prim (binary_normalize 53 1024 d 0 false)).

Definition hundredths (n : Z) : float := ratio n 100.

Definition thousandths (n : Z) : float := ratio n 1000.

End JsNumber.

(** [[...new Set(l)]]: the distinct elements in the order of their first
    occurrence; [seen] holds what the set already contains. *)
Fixpoint set_spread_from (seen : list string) (l : list string) : list string :=
  match l with
  | [] => []
  | x :: l' =>
      if bool_decide (x ∈ seen) then set_spread_from seen l'
      else x :: set_spread_from (x :: seen) l'
  end.

Definition set_spread (l : list string) : list string := set_spread_from [] l.

(** [e.data?.class]: the focus state has no such property. *)
Definition data_class (d : EventData) : option string :=
  match d with
  | ObjectPayload obj => Some (class obj)
  | FocusPayload _ => None
  end.

(** [.filter(Boolean)] on the class names: [undefined] and the empty string
    are dropped. *)
Definition filter_Boolean (l : list (option string)) : list string :=
  omap (fun o => match o with
                 | Some c => if truthy c then Some c else None
                 | None => None
                 end) l.

Definition has_type (t : EventType) (e : LoggedEvent) : Prop := type (event e) = t.

#[global] Instance has_type_dec t e : Decision (has_type t e).
Proof. unfold has_type. apply _. Defined.

(** *** The debounced event log *)

(** The three clock readings of one call of [addEvent]: [Date.now()] at line
    121, [new Date()] at line 132 and [Date.now()] at line 133. *)
Record Clock := {
  now : Z;
  isoNow : Z;
  elapsedNow : Z
}.

(** [addEvent] (lines 120-140).  The ref is written at once; the log is
    extended through the updater function. *)
Definition addEvent (ev : Event) (clock : Clock) : M unit :=
  let* st := get in
  let now := now clock in
  let lastTime := or_zero (lastEventTimeRef st !! type ev) in
  if now - lastTime <? 3000 then ret tt
  else
    modify (set_lastEventTimeRef (<[type ev := now]> (lastEventTimeRef st))) ;;;
    let newEvent :=
      {| event := ev;
         timestamp := isoNow clock;
         sessionTime := (fun start => elapsedNow clock - start)
                          <$> sessionStartTime st |} in
    modify (setEvents (fun prev => prev ++ [newEvent])) ;;;
    match sessionId st with
    | Some id => if truthy id then emit (ApiLogEvent id newEvent) else ret tt
    | None => ret tt
    end.

(** [newEvent] as [addEvent] builds it in a state. *)
Definition stamped (ev : Event) (clock : Clock) (st : State) : LoggedEvent :=
  {| event := ev;
     timestamp := isoNow clock;
     sessionTime := (fun start => elapsedNow clock - start)
                      <$> sessionStartTime st |}.

(** The number of events of a type in a log. *)
Definition count_type (t : EventType) (events : list LoggedEvent) : nat :=
  length (filter (has_type t) events).

(** What the debouncer and the log show for one event type: whether a
    session is active, the entry of the type and the number of its events. *)
Definition debounce_view (t : EventType) (st : State) : bool * option Z * nat :=
  (isSessionActive st, lastEventTimeRef st !! t, count_type t (events st)).

(** The acceptance rule in the words of the specification: a candidate is
    dropped when the time since the last accepted event of its type is below
    the cooldown, and accepted otherwise, also when no event of the type has
    been accepted so far. *)
Definition spec_accepts (lastAcceptedTime : gmap EventType Z) (t : EventType)
    (now : Z) : bool :=
  match lastAcceptedTime !! t with
  | Some last => negb (now - last <? 3000)
  | None => true
  end.

(** A candidate is accepted when it enters the log. *)
Definition accepted (ev : Event) (clock : Clock) (st : State) : Prop :=
  events (state_after (addEvent ev clock) st) <> events st.

(** The rule for a session in the words of the specification: a candidate is
    accepted if and only if the last accepted event of its type is at least
    3000 ms old or no event of its type was accepted yet in the session, that
    is, the log of the session holds none. *)
Definition specified_debounce (ev : Event) (clock : Clock) (st : State)
    : Prop :=
  accepted ev clock st <->
    (count_type (type ev) (events st) = 0%nat
     \/ exists last, lastEventTimeRef st !! type ev = Some last
                     /\ 3000 <= now clock - last).

(** *** The two effects that classify violations *)

(** The effect on [focusData] (lines 142-171); one clock per call site. *)
Definition focusEffect (focusData : FocusData) (cFocus cFace cMulti : Clock)
    : M unit :=
  let* st := get in
  if negb (isSessionActive st) then ret tt
  else
    (if 5000 <? focusLostDuration focusData then
       addEvent
         {| type := FOCUS_LOST;
            severity := "warning";
            message := "Focus lost for "
                       +:+ show (round_seconds (focusLostDuration focusData))
                       +:+ "s";
            data := FocusPayload focusData |} cFocus
     else ret tt) ;;;
    (if 10000 <? noFaceDuration focusData then
       addEvent
         {| type := NO_FACE;
            severity := "danger";
            message := "No face detected for "
                       +:+ show (round_seconds (noFaceDuration focusData))
                       +:+ "s";
            data := FocusPayload focusData |} cFace
     else ret tt) ;;;
    (if multipleFaces focusData then
       addEvent
         {| type := MULTIPLE_FACES;
            severity := "danger";
            message := "Multiple faces detected in frame";
            data := FocusPayload focusData |} cMulti
     else ret tt).

(** The object filter (line 176). *)
Definition suspiciousObjects (detectedObjects : list Detection)
    : list Detection :=
  filter (fun obj => class obj ≠ "person") detectedObjects.

(** [l.forEach(f)], with the index of the element. *)
Fixpoint forEach_from {A} (i : nat) (l : list A) (f : nat -> A -> M unit)
    : M unit :=
  match l with
  | [] => ret tt
  | x :: l' => f i x ;;; forEach_from (S i) l' f
  end.

Definition forEach {A} (l : list A) (f : nat -> A -> M unit) : M unit :=
  forEach_from 0 l f.

(** The effect on [objectData] (lines 173-189); [clockAt i] is the clock of
    the call for the [i]-th suspicious object. *)
Definition objectEffect (detectedObjects : list Detection)
    (clockAt : nat -> Clock) : M unit :=
  let* st := get in
  if negb (isSessionActive st) then ret tt
  else
    let suspiciousObjects := suspiciousObjects detectedObjects in
    if (0 <? length suspiciousObjects)%nat then
      forEach suspiciousObjects (fun i obj =>
        addEvent
          {| type := SUSPICIOUS_OBJECT;
             severity := "danger";
             message := class obj +:+ " detected ("
                        +:+ toString (round_percent (confidence obj))
                        +:+ "% confidence)";
             data := ObjectPayload obj |} (clockAt i))
    else ret tt.

(** *** Session life cycle *)

(** The value [apiService.createSession] resolves to. *)
Record ApiSession := {
  session_id : string
}.

(** The outcomes of the awaited calls of [startSession], the two readings of
    [new Date()] (lines 52 and 56) and the handles [setInterval] returns. *)
Record StartEnv := {
  startCamera_outcome : Outcome unit;
  startRecording_outcome : Outcome unit;
  createSession_outcome : Outcome ApiSession;
  createDate : Z;
  startDate : Z;
  detectionHandle : Z;
  timerHandle : Z
}.

(** [startSession] (lines 41-76). *)
Definition startSession (env : StartEnv) : M unit :=
  let* st := get in
  if negb (truthy (trim (candidateName st))) then
    emit (Alert "Please enter candidate name")
  else
    try_catch
      (call StartCamera (startCamera_outcome env) ;;;
       call StartRecording (startRecording_outcome env) ;;;
       let* session :=
         call (ApiCreateSession (trim (candidateName st)) (createDate env))
              (createSession_outcome env) in
       modify (setSessionId (Some (session_id session))) ;;;
       modify (setSessionStartTime (Some (startDate env))) ;;;
       modify (setIsSessionActive true) ;;;
       modify (setEvents (fun _ => [])) ;;;
       modify (setSessionTimer (fun _ => 0)) ;;;
       emit (SetInterval (detectionHandle env) DetectionLoop) ;;;
       modify (set_intervalRef (Some (detectionHandle env))) ;;;
       emit (SetInterval (timerHandle env) TimerLoop) ;;;
       modify (set_timerIntervalRef (Some (timerHandle env))))
      (fun error =>
         emit (ConsoleError "Error starting session:" error) ;;;
         emit (Alert "Failed to start session. Check console for errors.")).

(** The first awaited call of [startSession] that is rejected, with the
    calls made up to and including it. *)
Definition start_failure (env : StartEnv) (name : string)
    : option (list Effect * string) :=
  match startCamera_outcome env with
  | Rejected error => Some ([StartCamera], error)
  | Resolved _ =>
      match startRecording_outcome env with
      | Rejected error => Some ([StartCamera; StartRecording], error)
      | Resolved _ =>
          match createSession_outcome env with
          | Rejected error =>
              Some ([StartCamera; StartRecording;
                     ApiCreateSession name (createDate env)], error)
          | Resolved _ => None
          end
      end
  end.

Definition is_rejected {A} (o : Outcome A) : Prop :=
  match o with
  | Rejected _ => True
  | Resolved _ => False
  end.

Definition is_SetInterval (e : Effect) : Prop :=
  match e with
  | SetInterval _ _ => True
  | _ => False
  end.

(** The calls that give a capture resource back. *)
Definition is_release (e : Effect) : Prop :=
  match e with
  | StopCamera | StopRecording => True
  | _ => False
  end.

(** A run of [startSession] gave back what it took: the camera that it
    started was stopped again, and so was the recorder.  A resource was
    started when the call was made and succeeded. *)
Definition capture_released (env : StartEnv) (trace : list Effect) : Prop :=
  (startCamera_outcome env = Resolved tt ->
   StartCamera ∈ trace -> StopCamera ∈ trace)
  /\ (startRecording_outcome env = Resolved tt ->
      StartRecording ∈ trace -> StopRecording ∈ trace).

(** The summaries of lines 95-104 over a log. *)
Definition mkFocusSummary (events : list LoggedEvent) : FocusSummary :=
  {| focusLostCount := length (filter (has_type FOCUS_LOST) events);
     noFaceCount := length (filter (has_type NO_FACE) events);
     multipleFacesCount := length (filter (has_type MULTIPLE_FACES) events);
     eyeClosureCount := length (filter (has_type EYE_CLOSURE) events) |}.

Definition mkObjectSummary (events : list LoggedEvent) : ObjectSummary :=
  {| totalDetections := length (filter (has_type SUSPICIOUS_OBJECT) events);
     items :=
       set_spread
         (filter_Boolean
            (map (fun e => data_class (data (event e)))
                 (filter (has_type SUSPICIOUS_OBJECT) events))) |}.

(** The number of logged events of a type, counted along the log. *)
Fixpoint occurrences (t : EventType) (log : list LoggedEvent) : nat :=
  match log with
  | [] => 0%nat
  | e :: rest =>
      ((if bool_decide (type (event e) = t) then 1 else 0)
       + occurrences t rest)%nat
  end.

(** The items of the object summary in the words of the specification: the
    class names of the SUSPICIOUS_OBJECT events of the log, each once. *)
Definition items_as_specified (items : list string) (log : list LoggedEvent)
    : Prop :=
  NoDup items
  /\ forall c, c ∈ items <->
       exists e, e ∈ log /\ type (event e) = SUSPICIOUS_OBJECT
                 /\ data_class (data (event e)) = Some c.

(** The event types that the two effects construct. *)
Definition engine_type (t : EventType) : Prop :=
  t ∈ [FOCUS_LOST; NO_FACE; MULTIPLE_FACES; SUSPICIOUS_OBJECT].

Definition log_of_engine_types (st : State) : Prop :=
  Forall (fun e => engine_type (type (event e))) (events st).

(** [sessionData] (lines 85-105) for a start time [start] and the reading
    [sessionEndTime] of [new Date()]. *)
Definition mkSessionData (st : State) (start sessionEndTime : Z) : SessionData :=
  let sessionDuration := (inject_Z (sessionEndTime - start) / 1000)%Q in
  {| sd_sessionId := sessionId st;
     sd_candidateName := candidateName st;
     startTime := start;
     endTime := sessionEndTime;
     duration := sessionDuration;
     sd_events := events st;
     focusSummary := mkFocusSummary (events st);
     objectSummary := mkObjectSummary (events st) |}.

(** The outcomes of the calls of [endSession] and the reading of [new Date()]
    at line 85.  [stopRecording] (line 82) and [apiService.endSession]
    (line 107) are awaited; [stopCamera] (line 83) and [onSessionComplete]
    (line 108) are not, so for these two [Rejected] is an exception thrown by
    the call itself.  When such a call returns a promise, the last two fields
    tell how it settles; [endSession] reads neither. *)
Record EndEnv := {
  stopRecording_outcome : Outcome unit;
  stopCamera_outcome : Outcome unit;
  endDate : Z;
  endSession_outcome : Outcome unit;
  onSessionComplete_outcome : Outcome unit;
  stopCamera_promise : option (Outcome unit);
  onSessionComplete_promise : option (Outcome unit)
}.

(** [endSession] (lines 78-116).  Reading [getTime()] of a start time that is
    still [null] throws. *)
Definition endSession (env : EndEnv) : M unit :=
  let* st := get in
  try_catch
    (emit (ClearInterval (intervalRef st)) ;;;
     emit (ClearInterval (timerIntervalRef st)) ;;;
     call StopRecording (stopRecording_outcome env) ;;;
     invoke StopCamera (stopCamera_outcome env) ;;;
     let sessionEndTime := endDate env in
     let* start :=
       match sessionStartTime st with
       | Some start => ret start
       | None => throw "TypeError"
       end in
     let sessionData := mkSessionData st start sessionEndTime in
     call (ApiEndSession (sessionId st) sessionData) (endSession_outcome env) ;;;
     invoke (OnSessionComplete sessionData) (onSessionComplete_outcome env) ;;;
     modify (setIsSessionActive false) ;;;
     modify (setSessionId None) ;;;
     modify (setCandidateName "") ;;;
     modify (setSessionTimer (fun _ => 0)))
    (fun error => emit (ConsoleError "Error ending session:" error)).

(** *** The component as a transition system

    What can happen to a mounted component: the name field is edited, one of
    the two buttons is pressed, one of the two effects runs because its
    dependency changed, or the session timer fires.  The start form is
    rendered while no session is active and the end button while one is
    (lines 212-234). *)
Inductive Action :=
| EditName (name : string)
| PressStart (env : StartEnv)
| PressEnd (env : EndEnv)
| FocusChanged (focusData : FocusData) (cFocus cFace cMulti : Clock)
| ObjectsChanged (detectedObjects : list Detection) (clockAt : nat -> Clock)
| TimerFired.

Definition enabled (a : Action) (st : State) : bool :=
  match a with
  | EditName _ | PressStart _ => negb (isSessionActive st)
  | PressEnd _ => isSessionActive st
  | _ => true
  end.

Definition perform (a : Action) : M unit :=
  match a with
  | EditName name => modify (setCandidateName name)
  | PressStart env => startSession env
  | PressEnd env => endSession env
  | FocusChanged focusData cFocus cFace cMulti =>
      focusEffect focusData cFocus cFace cMulti
  | ObjectsChanged detectedObjects clockAt =>
      objectEffect detectedObjects clockAt
  | TimerFired => modify (setSessionTimer (fun prev => prev + 1))
  end.

Inductive reachable : State -> Prop :=
| reachable_initial : reachable initialState
| reachable_step a st :
    reachable st -> enabled a st = true ->
    reachable (state_after (perform a) st).

Fixpoint run (actions : list Action) (st : State) : State :=
  match actions with
  | [] => st
  | a :: rest =>
      if enabled a st then run rest (state_after (perform a) st) else run rest st
  end.

End Dashboard.

(** ** The sampling pipeline: a frame, then the effect on the new focus state *)

Module Pipeline.

Import FocusDetection Dashboard.

Section Frames.

Variable Landmarks : Type.
Variable calculateGaze : Landmarks -> GazeData.

(** The hook and the component side by side: the focus state last handed to
    [setFocusData], the two refs of the hook and the state of the
    component. *)
Record Monitor := {
  focus : FocusData;
  refs : Refs;
  dash : State
}.

(** One answer of the face mesh.  The handler is registered once (lines
    17-37) and copies the [focusData] of the render that created it; [seen]
    is that object, whichever render it was.  [at_time] is the clock of the
    handler; the three clocks are those of the effect that runs after the
    state was set. *)
Record Frame := {
  ready : bool;
  seen : FocusData;
  results : Results Landmarks;
  at_time : Z;
  cFocus : Clock;
  cFace : Clock;
  cMulti : Clock
}.

(** A frame is analysed; when the handler sets the state, the component
    renders again and the effect on [focusData] runs. *)
Definition frame_step (f : Frame) (m : Monitor) : Monitor :=
  match onFaceResults calculateGaze
          (ready f) (seen f) (refs m) (results f) (at_time f) with
  | None => m
  | Some (newFocusData, newRefs) =>
      {| focus := newFocusData;
         refs := newRefs;
         dash := state_after
                   (focusEffect newFocusData (cFocus f) (cFace f) (cMulti f))
                   (dash m) |}
  end.

Fixpoint run_frames (frames : list Frame) (m : Monitor) : Monitor :=
  match frames with
  | [] => m
  | f :: rest => run_frames rest (frame_step f m)
  end.

(** A frame without a face that reaches a mounted canvas at time [t]. *)
Definition empty_frame_at (t : Z) (f : Frame) : Prop :=
  ready f = true /\ faceCount (results f) = 0%nat /\ at_time f = t.

End Frames.

Arguments ready {Landmarks} _.
Arguments seen {Landmarks} _.
Arguments results {Landmarks} _.
Arguments at_time {Landmarks} _.
Arguments cFocus {Landmarks} _.
Arguments cFace {Landmarks} _.
Arguments cMulti {Landmarks} _.
Arguments frame_step {Landmarks} calculateGaze f m.
Arguments run_frames {Landmarks} calculateGaze frames m.
Arguments empty_frame_at {Landmarks} t f.

End Pipeline.

(** ** Sample inputs *)

Module Samples.

Import FocusDetection Dashboard Pipeline.

(** In the samples a face is given by the gaze estimate of its landmarks. *)
Definition sampleGaze (g : GazeData) : GazeData := g.

Definition noFaces : Results GazeData := {| multiFaceLandmarks := Some [] |}.

Definition noResult : Results GazeData := {| multiFaceLandmarks := None |}.

Definition attentive : GazeData :=
  {| gaze_lookingAtScreen := true; gaze_eyeClosure := false |}.

Definition lookingAway : GazeData :=
  {| gaze_lookingAtScreen := false; gaze_eyeClosure := false |}.

Definition oneFace (g : GazeData) : Results GazeData :=
  {| multiFaceLandmarks := Some [g] |}.

Definition twoFaces : Results GazeData :=
  {| multiFaceLandmarks := Some [attentive; attentive] |}.

(** The focus state after a frame with two faces, the first one drowsy. *)
Definition crowded : FocusData :=
  {| faceDetected := true; lookingAtScreen := true; focusScore := 55;
     focusLostDuration := 0; noFaceDuration := 0;
     multipleFaces := true; eyeClosure := true |}.

Definition tick (t : Z) : Clock := {| now := t; isoNow := t; elapsedNow := t |}.

(** A reading of the clock in November 2023. *)
Definition t0 : Z := 1700000000000.

Definition book : Detection :=
  {| class := "book"; confidence := hundredths 87; bbox := [] |}.

Definition phone : Detection :=
  {| class := "cell phone"; confidence := hundredths 61; bbox := [] |}.

Definition person : Detection :=
  {| class := "person"; confidence := hundredths 99; bbox := [] |}.

Definition unnamed : Detection :=
  {| class := ""; confidence := hundredths 50; bbox := [] |}.

Definition candidate (t : EventType) : Event :=
  {| type := t; severity := "danger"; message := "";
     data := FocusPayload initialFocusData |}.

Definition objectEvent (obj : Detection) : Event :=
  {| type := SUSPICIOUS_OBJECT; severity := "danger"; message := "";
     data := ObjectPayload obj |}.

Definition logged (ev : Event) (t : Z) : LoggedEvent :=
  {| event := ev; timestamp := t; sessionTime := Some (t - t0) |}.

(** A session that started at time [t0], with an empty log. *)
Definition running : State :=
  {| isSessionActive := true; candidateName := "Ada"; sessionId := Some "s1";
     sessionStartTime := Some t0; events := []; sessionTimer := 0;
     intervalRef := Some 1; timerIntervalRef := Some 2;
     lastEventTimeRef := ∅ |}.

Definition allGood : StartEnv :=
  {| startCamera_outcome := Resolved tt;
     startRecording_outcome := Resolved tt;
     createSession_outcome := Resolved {| session_id := "s1" |};
     createDate := t0; startDate := t0;
     detectionHandle := 1; timerHandle := 2 |}.

Definition noCamera : StartEnv :=
  {| startCamera_outcome := Rejected "NotAllowedError";
     startRecording_outcome := Resolved tt;
     createSession_outcome := Resolved {| session_id := "s1" |};
     createDate := t0; startDate := t0;
     detectionHandle := 1; timerHandle := 2 |}.

Definition startsAt (t : Z) : StartEnv :=
  {| startCamera_outcome := Resolved tt;
     startRecording_outcome := Resolved tt;
     createSession_outcome := Resolved {| session_id := "s2" |};
     createDate := t; startDate := t;
     detectionHandle := 3; timerHandle := 4 |}.

Definition endsWell (t : Z) : EndEnv :=
  {| stopRecording_outcome := Resolved tt;
     stopCamera_outcome := Resolved tt;
     endDate := t;
     endSession_outcome := Resolved tt;
     onSessionComplete_outcome := Resolved tt;
     stopCamera_promise := None;
     onSessionComplete_promise := None |}.

(** A session in which two faces are reported one second after the start
    is ended half a second later, and the next session starts half a second
    after that. *)
Definition twoSessions : list Action :=
  [ EditName "Ada";
    PressStart allGood;
    FocusChanged crowded (tick (t0 + 1000)) (tick (t0 + 1000)) (tick (t0 + 1000));
    PressEnd (endsWell (t0 + 1500));
    EditName "Bob";
    PressStart (startsAt (t0 + 2000)) ].

(** A session on a clock that was started at the epoch. *)
Definition epochSession : State :=
  {| isSessionActive := true; candidateName := "Ada"; sessionId := Some "s1";
     sessionStartTime := Some 0; events := []; sessionTimer := 0;
     intervalRef := Some 1; timerIntervalRef := Some 2;
     lastEventTimeRef := ∅ |}.

(** A start request with a name of three spaces. *)
Definition blankName : State := setCandidateName "   " initialState.

(** A session during which a person and an object with an empty class name
    are reported. *)
Definition unnamedObject : list Action :=
  [ EditName "Ada";
    PressStart allGood;
    ObjectsChanged [person; unnamed] (fun _ => tick (t0 + 5000)) ].

Definition unnamedLogged : LoggedEvent :=
  {| event :=
       {| type := SUSPICIOUS_OBJECT; severity := "danger";
          message := " detected (50% confidence)";
          data := ObjectPayload unnamed |};
     timestamp := t0 + 5000;
     sessionTime := Some 5000 |}.

(** Eleven frames without a face, one second apart, after a face was last
    seen at time [t0]. *)
Definition emptyFrame (t : Z) : Frame GazeData :=
  {| ready := true; seen := initialFocusData; results := noFaces;
     at_time := t; cFocus := tick t; cFace := tick t; cMulti := tick t |}.


Definition watching (t0 : Z) : Monitor :=
  {| focus := initialFocusData;
     refs := {| lastFocusTime := t0; lastFaceTime := t0 |};
     dash := running |}.

End Samples.

(** ** The session timer as shown in the header *)

Module Display.

Import Stdlib.Strings.Ascii.
Import Dashboard.

Fixpoint repeat_char (c : Ascii.ascii) (n : nat) : string :=
  match n with
  | O => EmptyString
  | S n' => String c (repeat_char c n')
  end.

(** [s.padStart(targetLength, c)] for a pad string of one character: a
    string that is long enough is returned as it is. *)
Definition padStart (targetLength : nat) (c : Ascii.ascii) (s : string)
    : string :=
  repeat_char c (targetLength - String.length s) +:+ s.

(** [formatTimer] (lines 192-197): [Math.floor(seconds / 60)] and
    [seconds % 60], each printed in decimal and padded to two characters. *)
Definition formatTimer (seconds : Z) : string :=
  let mins := seconds / 60 in
  let secs := Z.rem seconds 60 in
  padStart 2 "0"%char (show mins) +:+ ":" +:+ padStart 2 "0"%char (show secs).

(** Reading the display back: the text before and after the first colon, and
    the two decimal numbers they print. *)
Fixpoint split_at_colon (s : string) : option (string * string) :=
  match s with
  | EmptyString => None
  | String c s' =>
      if Ascii.eqb c ":"%char then Some (EmptyString, s')
      else match split_at_colon s' with
           | Some (before, after) => Some (String c before, after)
           | None => None
           end
  end.

Definition parseNumber (s : string) : option Z :=
  option_map Z.of_int (NilZero.int_of_string s).

Definition parseTimer (s : string) : option (Z * Z) :=
  match split_at_colon s with
  | Some (mins, secs) =>
      match parseNumber mins, parseNumber secs with
      | Some m, Some n => Some (m, n)
      | _, _ => None
      end
  | None => None
  end.

(** The decimal digits. *)
Definition is_digit (c : ascii) : Prop :=
  In c ["0"; "1"; "2"; "3"; "4"; "5"; "6"; "7"; "8"; "9"]%char.

Fixpoint all_digits (s : string) : Prop :=
  match s with
  | EmptyString => True
  | String c s' => is_digit c /\ all_digits s'
  end.

End Display.

(** ** Runs of candidates and of frames *)

Module Runs.

Import FocusDetection Dashboard Pipeline.

(** Candidates handed to [addEvent] one after the other, each with its
    clock. *)
Definition addEvents (candidates : list (Event * Clock)) : M unit :=
  forEach candidates (fun _ c => addEvent (fst c) (snd c)).

(** The event that the effect on [objectData] builds for an object (lines
    180-186). *)
Definition objectEventOf (obj : Detection) : Event :=
  {| type := SUSPICIOUS_OBJECT;
     severity := "danger";
     message := class obj +:+ " detected ("
                +:+ toString (round_percent (confidence obj))
                +:+ "% confidence)";
     data := ObjectPayload obj |}.

(** The clock of the handler never runs backwards from [t] on along the
    frames. *)
Fixpoint clock_monotone {Landmarks} (t : Z) (frames : list (Frame Landmarks))
    : Prop :=
  match frames with
  | [] => True
  | f :: rest => t <= at_time f /\ clock_monotone (at_time f) rest
  end.

(** The two durations of a focus state as the handler relates them. *)
Definition durations_ordered (d : FocusData) : Prop :=
  0 <= noFaceDuration d <= focusLostDuration d.

(** A frame with exactly one face that looks at the screen with open eyes,
    on a mounted canvas. *)
Definition attentive_frame {Landmarks} (calculateGaze : Landmarks -> GazeData)
    (f : Frame Landmarks) : Prop :=
  ready f = true
  /\ exists landmarks,
       multiFaceLandmarks (results f) = Some [landmarks]
       /\ gaze_lookingAtScreen (calculateGaze landmarks) = true
       /\ gaze_eyeClosure (calculateGaze landmarks) = false.

(** What entitles an event to be in the log: the payload that made the
    effect build it, and the severity it was given. *)
Definition justified_event (ev : Event) : Prop :=
  match type ev, data ev with
  | FOCUS_LOST, FocusPayload d =>
      5000 < focusLostDuration d /\ severity ev = "warning"
  | NO_FACE, FocusPayload d =>
      10000 < noFaceDuration d /\ severity ev = "danger"
  | MULTIPLE_FACES, FocusPayload d =>
      multipleFaces d = true /\ severity ev = "danger"
  | SUSPICIOUS_OBJECT, ObjectPayload obj =>
      class obj <> "person" /\ severity ev = "danger"
  | _, _ => False
  end.

(** The calls to [apiService.logEvent] for a list of new events under a
    session id (lines 137-139): none for [null] and for an empty id. *)
Definition api_calls (sessionId : option string) (new : list LoggedEvent)
    : list Effect :=
  match sessionId with
  | Some id => if truthy id then map (ApiLogEvent id) new else []
  | None => []
  end.

(** A handler that returns, appends [new] to the log, reports exactly these
    events and leaves the session id alone. *)
Definition logs_and_reports (m : M unit) (st : State)
    (new : list LoggedEvent) : Prop :=
  fst (fst (m st)) = inr tt
  /\ events (state_after m st) = events st ++ new
  /\ trace_of m st = api_calls (sessionId st) new
  /\ sessionId (state_after m st) = sessionId st.

(** A session that is marked active has what [startSession] stored with the
    mark. *)
Definition active_session_is_set_up (st : State) : Prop :=
  isSessionActive st = true ->
  is_Some (sessionId st) /\ is_Some (sessionStartTime st)
  /\ is_Some (intervalRef st) /\ is_Some (timerIntervalRef st).

(** The state of the session proper, which [addEvent] does not touch. *)
Definition session_fields (st : State)
    : bool * option string * option Z * option Z * option Z * Z :=
  (isSessionActive st, sessionId st, sessionStartTime st,
   intervalRef st, timerIntervalRef st, sessionTimer st).

(** The log of a session that has a start time, between two calls of
    [addEvent]. *)
Definition logging (fields : bool * option string * option Z * option Z
                             * option Z * Z) (st : State) : Prop :=
  session_fields st = fields
  /\ is_Some (sessionStartTime st)
  /\ Forall (fun e => is_Some (sessionTime e)) (events st)
  /\ Forall (fun e => justified_event (event e)) (events st).

(** What holds of every state the component reaches. *)
Record well_formed (st : State) : Prop := {
  wf_set_up : active_session_is_set_up st;
  wf_timer : 0 <= sessionTimer st;
  wf_timed : Forall (fun e => is_Some (sessionTime e)) (events st);
  wf_justified : Forall (fun e => justified_event (event e)) (events st)
}.

(** The first call of [endSession] that fails (an awaited call that is
    rejected, or a call that throws), with the calls made after the two
    intervals were cleared, up to and including it; a start time that is
    still [null] fails after the camera was stopped, without a call. *)
Definition end_failure (env : EndEnv) (st : State)
    : option (list Effect * string) :=
  match stopRecording_outcome env with
  | Rejected error => Some ([StopRecording], error)
  | Resolved _ =>
      match stopCamera_outcome env with
      | Rejected error => Some ([StopRecording; StopCamera], error)
      | Resolved _ =>
          match sessionStartTime st with
          | None => Some ([StopRecording; StopCamera], "TypeError")
          | Some start =>
              let sessionData := mkSessionData st start (endDate env) in
              match endSession_outcome env with
              | Rejected error =>
                  Some ([StopRecording; StopCamera;
                         ApiEndSession (sessionId st) sessionData], error)
              | Resolved _ =>
                  match onSessionComplete_outcome env with
                  | Rejected error =>
                      Some ([StopRecording; StopCamera;
                             ApiEndSession (sessionId st) sessionData;
                             OnSessionComplete sessionData], error)
                  | Resolved _ => None
                  end
              end
          end
      end
  end.

(** The same outcomes with other promises returned by the two calls that are
    not awaited. *)
Definition with_promises (p q : option (Outcome unit)) (env : EndEnv)
    : EndEnv :=
  {| stopRecording_outcome := stopRecording_outcome env;
     stopCamera_outcome := stopCamera_outcome env;
     endDate := endDate env;
     endSession_outcome := endSession_outcome env;
     onSessionComplete_outcome := onSessionComplete_outcome env;
     stopCamera_promise := p;
     onSessionComplete_promise := q |}.

End Runs.

(** ** Further sample inputs *)

Module MoreSamples.

Import FocusDetection Dashboard Pipeline Runs Samples.

Definition noRecorder : EndEnv :=
  {| stopRecording_outcome := Rejected "InvalidStateError";
     stopCamera_outcome := Resolved tt;
     endDate := t0 + 60000;
     endSession_outcome := Resolved tt;
     onSessionComplete_outcome := Resolved tt;
     stopCamera_promise := None;
     onSessionComplete_promise := None |}.

(** Every call of [endSession] goes well, but [stopCamera] and
    [onSessionComplete] return promises that are rejected. *)
Definition lateRejections : EndEnv :=
  with_promises (Some (Rejected "NotFoundError"))
                (Some (Rejected "TypeError")) (endsWell (t0 + 60000)).

(** A start request for which the camera and the recorder start and the
    creation of the session fails. *)
Definition noSession : StartEnv :=
  {| startCamera_outcome := Resolved tt;
     startRecording_outcome := Resolved tt;
     createSession_outcome := Rejected "Network Error";
     createDate := t0; startDate := t0;
     detectionHandle := 1; timerHandle := 2 |}.

(** The string of the given bytes. *)
Definition bytes (l : list nat) : string :=
  foldr (fun n s => String (Ascii.ascii_of_nat n) s) "" l.

(** A no-break space (U+00A0), an ideographic space (U+3000), a byte order
    mark (U+FEFF) and a line separator (U+2028), in UTF-8. *)
Definition wideBlank : string :=
  bytes [194; 160; 227; 128; 128; 239; 187; 191; 226; 128; 168]%nat.

(** A start request with a name of such characters only. *)
Definition wideBlankName : State := setCandidateName wideBlank initialState.

(** A book detected with confidence 0.155: the product with 100 is the
    double 15.5. *)
Definition faintBook : Detection :=
  {| class := "book"; confidence := thousandths 155; bbox := [] |}.

Definition attentiveFrame (t : Z) : Frame GazeData :=
  {| ready := true; seen := initialFocusData; results := oneFace attentive;
     at_time := t; cFocus := tick t; cFace := tick t; cMulti := tick t |}.

Definition awayFrame (t : Z) : Frame GazeData :=
  {| ready := true; seen := initialFocusData; results := oneFace lookingAway;
     at_time := t; cFocus := tick t; cFace := tick t; cMulti := tick t |}.

(** A session whose last SUSPICIOUS_OBJECT event was accepted at [t0]. *)
Definition afterObject : State :=
  state_after (addEvent (objectEventOf book) (tick t0)) running.

End MoreSamples.

(** * Properties *)

(** ** Focus analysis and focus score *)

Module FocusProps.

Import FocusDetection Samples.

Lemma penalty_sum_unfold data :
  penalty_sum data =
    (if negb (faceDetected data) then 50 else 0)
    + (if negb (lookingAtScreen data) then 20 else 0)
    + (if multipleFaces data then 30 else 0)
    + (if eyeClosure data then 15 else 0)
    + (if 5000 <? focusLostDuration data then 20 else 0)
    + (if 10000 <? noFaceDuration data then 40 else 0).
Proof.
  unfold penalty_sum, penalties; cbn [foldr fst snd].
  replace (bool_decide (focusLostDuration data > 5000))
    with (5000 <? focusLostDuration data)
    by (destruct (Z.ltb_spec 5000 (focusLostDuration data));
        [rewrite bool_decide_eq_true_2 | rewrite bool_decide_eq_false_2];
        (reflexivity || lia)).
  replace (bool_decide (noFaceDuration data > 10000))
    with (10000 <? noFaceDuration data)
    by (destruct (Z.ltb_spec 10000 (noFaceDuration data));
        [rewrite bool_decide_eq_true_2 | rewrite bool_decide_eq_false_2];
        (reflexivity || lia)).
  repeat match goal with |- context [if ?b then _ else _] => destruct b end;
    lia.
Qed.

Lemma calculateFocusScore_penalties data :
  calculateFocusScore data = Z.max 0 (100 - penalty_sum data).
Proof.
  rewrite penalty_sum_unfold. unfold calculateFocusScore.
  repeat match goal with |- context [if ?b then _ else _] => destruct b end;
    reflexivity.
Qed.

Lemma penalty_sum_nonneg data : 0 <= penalty_sum data.
Proof.
  rewrite penalty_sum_unfold.
  repeat match goal with |- context [if ?b then _ else _] => destruct b end;
    lia.
Qed.

Lemma calculateFocusScore_range data : 0 <= calculateFocusScore data <= 100.
Proof.
  rewrite calculateFocusScore_penalties.
  pose proof (penalty_sum_nonneg data). lia.
Qed.

(** The score does not read the field it is stored in. *)
Lemma penalty_sum_set_focusScore v data :
  penalty_sum (set_focusScore v data) = penalty_sum data.
Proof. reflexivity. Qed.

Section HandlerProps.

Variable Landmarks : Type.
Variable calculateGaze : Landmarks -> GazeData.

(** The handler sets the state exactly when canvas and video are mounted,
    and the score it stores is the score of the object it stores. *)
Lemma onFaceResults_emits ready focusData refs results currentTime :
  match onFaceResults calculateGaze
          ready focusData refs results currentTime with
  | Some (newFocusData, _) =>
      ready = true
      /\ focusScore newFocusData = calculateFocusScore newFocusData
  | None => ready = false
  end.
Proof.
  unfold onFaceResults. destruct ready; cbn [negb]; [|reflexivity].
  destruct (multiFaceLandmarks results) as [[|landmarks others]|];
    try (split; reflexivity).
  destruct (gaze_lookingAtScreen (calculateGaze landmarks));
    split; reflexivity.
Qed.

(** What the branch for a frame without a face does (lines 66-71): two
    flags are cleared, the two durations are measured from the two refs, the
    refs stay, and the two other flags are those of the copied object. *)
Lemma onFaceResults_no_face focusData refs results currentTime :
  faceCount results = 0%nat ->
  exists newFocusData,
    onFaceResults calculateGaze
      true focusData refs results currentTime = Some (newFocusData, refs)
    /\ faceDetected newFocusData = false
    /\ lookingAtScreen newFocusData = false
    /\ noFaceDuration newFocusData = currentTime - lastFaceTime refs
    /\ focusLostDuration newFocusData = currentTime - lastFocusTime refs
    /\ multipleFaces newFocusData = multipleFaces focusData
    /\ eyeClosure newFocusData = eyeClosure focusData.
Proof.
  unfold faceCount, onFaceResults. intros Hzero. cbn [negb].
  destruct (multiFaceLandmarks results) as [[|landmarks others]|];
    try discriminate; eexists; repeat split.
Qed.

End HandlerProps.

(** C3.  For every focus state the score that [calculateFocusScore] returns
    is [max 0 (100 - sum of the applicable penalties)], with the penalties 50
    (no face), 20 (not looking at the screen), 30 (multiple faces), 15 (eye
    closure), 20 (focus lost for more than 5000 ms) and 40 (no face for more
    than 10000 ms), and it lies between 0 and 100; every state that
    [onFaceResults] hands to [setFocusData] stores that score, and the
    handler stores a state whenever canvas and video are mounted. *)
Theorem focus_score_is_clamped_penalty_sum :
  (forall data : FocusData,
      calculateFocusScore data = Z.max 0 (100 - penalty_sum data)
      /\ 0 <= calculateFocusScore data <= 100)
  /\ (forall (Landmarks : Type) (calculateGaze : Landmarks -> GazeData)
        ready focusData refs results currentTime,
        match onFaceResults calculateGaze
                ready focusData refs results currentTime with
        | Some (newFocusData, _) =>
            focusScore newFocusData
              = Z.max 0 (100 - penalty_sum newFocusData)
            /\ 0 <= focusScore newFocusData <= 100
        | None => ready = false
        end).
Proof.
  split.
  - intros data. split.
    + apply calculateFocusScore_penalties.
    + apply calculateFocusScore_range.
  - intros Landmarks calculateGaze ready focusData refs results currentTime.
    pose proof (onFaceResults_emits Landmarks calculateGaze
                  ready focusData refs results currentTime) as Hemit.
    destruct (onFaceResults _ _ _ _ _ _) as [[newFocusData newRefs]|];
      [|exact Hemit].
    destruct Hemit as [_ Hscore]. rewrite Hscore. split.
    + apply calculateFocusScore_penalties.
    + apply calculateFocusScore_range.
Qed.

(** The handler on sample frames: an attentive face gives the full score,
    a second face costs 30, and a result without a landmark list is a frame
    without a face. *)
Example one_attentive_face :
  onFaceResults sampleGaze true initialFocusData
    {| lastFocusTime := 0; lastFaceTime := 0 |} (oneFace attentive) 1000
  = Some ({| faceDetected := true; lookingAtScreen := true; focusScore := 100;
             focusLostDuration := 0; noFaceDuration := 0;
             multipleFaces := false; eyeClosure := false |},
          {| lastFocusTime := 1000; lastFaceTime := 1000 |}).
Proof. reflexivity. Qed.

Example two_attentive_faces :
  (fun r => focusScore (fst r)) <$>
    onFaceResults sampleGaze true initialFocusData
      {| lastFocusTime := 0; lastFaceTime := 0 |} twoFaces 1000
  = Some 70.
Proof. reflexivity. Qed.

Example missing_landmark_list :
  onFaceResults sampleGaze true initialFocusData
    {| lastFocusTime := 0; lastFaceTime := 0 |} noResult 1000
  = onFaceResults sampleGaze true initialFocusData
      {| lastFocusTime := 0; lastFaceTime := 0 |} noFaces 1000.
Proof. reflexivity. Qed.

(** C2 (as amended).  For every frame for which the handler stores
    [faceDetected = false], the stored [noFaceDuration] is the time since a
    face was last seen and the stored [focusLostDuration] is the time since
    the subject last looked at the screen: [now - lastFaceTime] and
    [now - lastFocusTime]. *)
Theorem no_face_durations_follow_their_own_refs
    (Landmarks : Type) (calculateGaze : Landmarks -> GazeData)
    ready focusData refs results currentTime newFocusData newRefs :
  onFaceResults calculateGaze
    ready focusData refs results currentTime = Some (newFocusData, newRefs) ->
  faceDetected newFocusData = false ->
  noFaceDuration newFocusData = currentTime - lastFaceTime refs
  /\ focusLostDuration newFocusData = currentTime - lastFocusTime refs.
Proof.
  unfold onFaceResults. destruct ready; cbn [negb]; [|discriminate].
  destruct (multiFaceLandmarks results) as [[|landmarks others]|].
  - intros [= <- <-] _. split; reflexivity.
  - destruct (gaze_lookingAtScreen (calculateGaze landmarks));
      intros [= <- <-]; cbn; discriminate.
  - intros [= <- <-] _. split; reflexivity.
Qed.

Lemma no_face_durations_follow_their_own_refs_witness :
  exists newFocusData,
    onFaceResults sampleGaze true initialFocusData
      {| lastFocusTime := 1000; lastFaceTime := 4000 |} noFaces 5000
      = Some (newFocusData, {| lastFocusTime := 1000; lastFaceTime := 4000 |})
    /\ noFaceDuration newFocusData = 5000 - 4000
    /\ focusLostDuration newFocusData = 5000 - 1000.
Proof.
  eexists. split; [reflexivity|].
  apply (no_face_durations_follow_their_own_refs GazeData sampleGaze
           true initialFocusData
           {| lastFocusTime := 1000; lastFaceTime := 4000 |} noFaces 5000
           _ {| lastFocusTime := 1000; lastFaceTime := 4000 |});
    reflexivity.
Defined.

(** C2 (as stated) fails.  The subject looks at the screen at time 1000,
    looks away at time 4000 and is gone at time 5000: the handler stores
    [faceDetected = false] and [noFaceDuration = 5000 - 4000], but
    [focusLostDuration = 4000], which is not [now - lastFaceTime]. *)
Lemma focus_lost_is_not_measured_from_last_face :
  exists refs1 refs2 focus1 focus2 focus3,
    onFaceResults sampleGaze true initialFocusData
      {| lastFocusTime := 0; lastFaceTime := 0 |} (oneFace attentive) 1000
      = Some (focus1, refs1)
    /\ onFaceResults sampleGaze true focus1 refs1
         (oneFace lookingAway) 4000 = Some (focus2, refs2)
    /\ onFaceResults sampleGaze true focus2 refs2 noFaces 5000
       = Some (focus3, refs2)
    /\ faceDetected focus3 = false
    /\ noFaceDuration focus3 = 5000 - lastFaceTime refs2
    /\ focusLostDuration focus3 = 4000
    /\ focusLostDuration focus3 <> 5000 - lastFaceTime refs2.
Proof.
  do 5 eexists.
  split; [reflexivity|]. split; [reflexivity|]. split; [reflexivity|].
  cbn. repeat split; discriminate.
Qed.

(** C1.  For every frame without a face that the hook receives while canvas
    and video are mounted, the handler that FaceMesh calls passes to
    [setFocusData] an object with [faceDetected], [multipleFaces],
    [lookingAtScreen] and [eyeClosure] all [false], and that object becomes
    the stored focus state, whatever state and refs the frames before it left
    behind.  Lines 66-71 assign the first and the third flag; the other two
    are those of the object copied at line 47, which for the registered
    handler is the initial state, where both are [false]. *)
Theorem zero_faces_clear_the_four_flags {Landmarks : Type}
    (calculateGaze : Landmarks -> GazeData) (hook : Hook)
    (results : Results Landmarks) (currentTime : Z) :
  faceCount results = 0%nat ->
  exists newFocusData,
    registeredHandler calculateGaze true (hookRefs hook) results currentTime
    = Some (newFocusData, hookRefs hook)
    /\ receive calculateGaze true hook results currentTime
       = {| stored := newFocusData; hookRefs := hookRefs hook |}
    /\ faceDetected newFocusData = false
    /\ multipleFaces newFocusData = false
    /\ lookingAtScreen newFocusData = false
    /\ eyeClosure newFocusData = false.
Proof.
  intros Hzero.
  destruct (onFaceResults_no_face Landmarks calculateGaze initialFocusData
              (hookRefs hook) results currentTime Hzero)
    as (newFocusData & Hrun & Hface & Hlooking & _ & _ & Hmulti & Hclosure).
  exists newFocusData. unfold receive, registeredHandler. rewrite Hrun.
  repeat split; assumption.
Qed.

(** After a frame with two faces, the first with closed eyes, the stored
    state has [multipleFaces] and [eyeClosure] set; the frame without a face
    that follows clears both. *)
Lemma zero_faces_clear_the_four_flags_witness :
  let drowsy := {| gaze_lookingAtScreen := true; gaze_eyeClosure := true |} in
  let hook0 := {| stored := initialFocusData;
                  hookRefs := {| lastFocusTime := 0; lastFaceTime := 0 |} |} in
  let hook1 :=
    receive sampleGaze true hook0
      {| multiFaceLandmarks := Some [drowsy; attentive] |} 1000 in
  faceCount noFaces = 0%nat
  /\ stored hook1 = crowded
  /\ exists newFocusData,
       receive sampleGaze true hook1 noFaces 2000
       = {| stored := newFocusData; hookRefs := hookRefs hook1 |}
       /\ newFocusData
          = {| faceDetected := false; lookingAtScreen := false;
               focusScore := 30; focusLostDuration := 1000;
               noFaceDuration := 1000;
               multipleFaces := false; eyeClosure := false |}.
Proof.
  cbv zeta. split; [reflexivity|]. split; [reflexivity|].
  destruct (zero_faces_clear_the_four_flags sampleGaze
              (receive sampleGaze true
                 {| stored := initialFocusData;
                    hookRefs := {| lastFocusTime := 0; lastFaceTime := 0 |} |}
                 {| multiFaceLandmarks :=
                      Some [{| gaze_lookingAtScreen := true;
                               gaze_eyeClosure := true |}; attentive] |} 1000)
              noFaces 2000 eq_refl)
    as (newFocusData & Hrun & Hstored & _).
  exists newFocusData. split; [exact Hstored|].
  vm_compute in Hrun. injection Hrun as <-. reflexivity.
Defined.

End FocusProps.

(** ** The debouncer and the object filter *)

Module DebounceProps.

Import FocusDetection Dashboard Samples.

(** [addEvent] in one step: nothing happens below the cooldown; otherwise
    the ref takes the new time, the log grows by the stamped event and the
    event is sent when a session id is set. *)
Lemma addEvent_unfold ev clock st :
  addEvent ev clock st =
    if now clock - or_zero (lastEventTimeRef st !! type ev) <? 3000
    then (inr tt, st, [])
    else (inr tt,
          setEvents (fun prev => prev ++ [stamped ev clock st])
            (set_lastEventTimeRef
               (<[type ev := now clock]> (lastEventTimeRef st)) st),
          match sessionId st with
          | Some id =>
              if truthy id then [ApiLogEvent id (stamped ev clock st)] else []
          | None => []
          end).
Proof.
  unfold addEvent, bind, get, modify, stamped.
  destruct (now clock - or_zero (lastEventTimeRef st !! type ev) <? 3000);
    [reflexivity|].
  cbn. destruct (sessionId st) as [id|]; [|reflexivity].
  destruct (truthy id); reflexivity.
Qed.

Lemma addEvent_dropped ev clock st :
  now clock - or_zero (lastEventTimeRef st !! type ev) < 3000 ->
  addEvent ev clock st = (inr tt, st, []).
Proof.
  intros Hlt. rewrite addEvent_unfold.
  destruct (Z.ltb_spec (now clock - or_zero (lastEventTimeRef st !! type ev))
              3000); [reflexivity | lia].
Qed.

Lemma addEvent_accepted ev clock st :
  3000 <= now clock - or_zero (lastEventTimeRef st !! type ev) ->
  state_after (addEvent ev clock) st =
    setEvents (fun prev => prev ++ [stamped ev clock st])
      (set_lastEventTimeRef
         (<[type ev := now clock]> (lastEventTimeRef st)) st).
Proof.
  intros Hge. unfold state_after. rewrite addEvent_unfold.
  destruct (Z.ltb_spec (now clock - or_zero (lastEventTimeRef st !! type ev))
              3000); [lia | reflexivity].
Qed.

Lemma or_zero_insert (m : gmap EventType Z) t v :
  or_zero (<[t := v]> m !! t) = v.
Proof.
  rewrite lookup_insert_eq. unfold or_zero.
  destruct (Z.eqb_spec v 0); congruence.
Qed.

(** Fields that [addEvent] never writes. *)
Lemma addEvent_frame ev clock st :
  let st' := state_after (addEvent ev clock) st in
  isSessionActive st' = isSessionActive st
  /\ sessionId st' = sessionId st
  /\ sessionStartTime st' = sessionStartTime st
  /\ candidateName st' = candidateName st.
Proof.
  unfold state_after. rewrite addEvent_unfold.
  destruct (_ <? _); repeat split.
Qed.

(** C4 (as amended).  A candidate is accepted exactly when
    [now - lastTime >= 3000], where [lastTime] is the entry of the debounce
    map for its type and is 0 when the map has no entry (so the first
    candidate of a type is accepted when [now >= 3000]); whenever the map has
    an entry or [now >= 3000] this is the rule of the specification.  A
    dropped candidate changes neither the log nor the map nor anything else
    and causes no outside call; an accepted one is appended to the log and
    its time becomes the entry.  Hence, after a candidate accepted at time
    [t], a candidate of the same type at [t + 2999] is dropped, and a later
    one at least 3000 ms after [t] is accepted. *)
Theorem debounce_cooldown_rule (ev : Event) (clock : Clock) (st : State) :
  (now clock - or_zero (lastEventTimeRef st !! type ev) < 3000 ->
     addEvent ev clock st = (inr tt, st, []))
  /\ (3000 <= now clock - or_zero (lastEventTimeRef st !! type ev) ->
        events (state_after (addEvent ev clock) st)
          = events st ++ [stamped ev clock st]
        /\ lastEventTimeRef (state_after (addEvent ev clock) st)
           = <[type ev := now clock]> (lastEventTimeRef st)
        /\ or_zero (lastEventTimeRef (state_after (addEvent ev clock) st)
                      !! type ev) = now clock)
  /\ (lastEventTimeRef st !! type ev = None ->
        or_zero (lastEventTimeRef st !! type ev) = 0)
  /\ (is_Some (lastEventTimeRef st !! type ev) \/ 3000 <= now clock ->
        negb (now clock - or_zero (lastEventTimeRef st !! type ev) <? 3000)
          = spec_accepts (lastEventTimeRef st) (type ev) (now clock))
  /\ (forall (ev2 ev3 : Event) (clock2 clock3 : Clock),
        3000 <= now clock - or_zero (lastEventTimeRef st !! type ev) ->
        type ev2 = type ev -> type ev3 = type ev ->
        now clock2 = now clock + 2999 ->
        now clock + 3000 <= now clock3 ->
        let st1 := state_after (addEvent ev clock) st in
        let st2 := state_after (addEvent ev2 clock2) st1 in
        let st3 := state_after (addEvent ev3 clock3) st2 in
        addEvent ev2 clock2 st1 = (inr tt, st1, [])
        /\ events st3
           = events st ++ [stamped ev clock st; stamped ev3 clock3 st]).
Proof.
  split; [apply addEvent_dropped|].
  split.
  { intros Hge. rewrite (addEvent_accepted _ _ _ Hge). cbn.
    repeat split. apply or_zero_insert. }
  split; [intros ->; reflexivity|].
  split.
  { intros Hcase. unfold spec_accepts.
    destruct (lastEventTimeRef st !! type ev) as [last|] eqn:Hlast; cbn.
    - destruct (Z.eqb_spec last 0) as [->|]; reflexivity.
    - destruct Hcase as [[x Hx]|Hnow]; [discriminate|].
      destruct (Z.ltb_spec (now clock - 0) 3000); [lia | reflexivity]. }
  intros ev2 ev3 clock2 clock3 Hge Hty2 Hty3 Hnow2 Hnow3 st1 st2 st3.
  assert (Hentry1 : or_zero (lastEventTimeRef st1 !! type ev2) = now clock).
  { subst st1. rewrite (addEvent_accepted _ _ _ Hge), Hty2. cbn.
    apply or_zero_insert. }
  assert (Hdrop : addEvent ev2 clock2 st1 = (inr tt, st1, [])).
  { apply addEvent_dropped. rewrite Hentry1. lia. }
  split; [exact Hdrop|].
  assert (Hst2 : st2 = st1) by (subst st2; unfold state_after; now rewrite Hdrop).
  subst st3. rewrite Hst2.
  assert (Hge3 : 3000 <= now clock3 - or_zero (lastEventTimeRef st1 !! type ev3)).
  { rewrite Hty3, <- Hty2, Hentry1. lia. }
  rewrite (addEvent_accepted _ _ _ Hge3). subst st1.
  rewrite (addEvent_accepted _ _ _ Hge). cbn.
  rewrite <- app_assoc. reflexivity.
Qed.

Lemma debounce_cooldown_rule_witness :
  let st1 := state_after (addEvent (candidate NO_FACE) (tick t0)) running in
  let st2 :=
    state_after (addEvent (candidate NO_FACE) (tick (t0 + 2999))) st1 in
  let st3 :=
    state_after (addEvent (candidate NO_FACE) (tick (t0 + 3000))) st2 in
  addEvent (candidate NO_FACE) (tick (t0 + 2999)) st1 = (inr tt, st1, [])
  /\ events st3
     = events running
       ++ [stamped (candidate NO_FACE) (tick t0) running;
           stamped (candidate NO_FACE) (tick (t0 + 3000)) running].
Proof.
  destruct (debounce_cooldown_rule (candidate NO_FACE) (tick t0) running)
    as (_ & _ & _ & _ & Hscenario).
  apply Hscenario; try reflexivity; vm_compute; discriminate.
Defined.

(** Without an entry for its type a candidate is accepted exactly when the
    clock reads at least 3000. *)
Lemma first_candidate_accepted_iff ev clock st :
  lastEventTimeRef st !! type ev = None ->
  accepted ev clock st <-> 3000 <= now clock.
Proof.
  intros Hnone. unfold accepted, state_after. rewrite addEvent_unfold, Hnone.
  cbn [or_zero]. rewrite Z.sub_0_r.
  destruct (Z.ltb_spec (now clock) 3000) as [Hlt|Hge]; cbn.
  - split; [congruence | lia].
  - split; [intros _; exact Hge|]. intros _ Heq.
    apply (f_equal length) in Heq. rewrite length_app in Heq. cbn in Heq. lia.
Qed.

(** [startSession] empties the log and leaves the debounce map as it is. *)
Lemma startSession_keeps_debounce_map env st :
  lastEventTimeRef (state_after (startSession env) st) = lastEventTimeRef st.
Proof.
  unfold state_after, startSession, bind, get.
  destruct (negb (truthy (trim (candidateName st)))); [reflexivity|].
  unfold try_catch, bind, call, modify, emit.
  destruct (startCamera_outcome env); [|reflexivity].
  destruct (startRecording_outcome env); [|reflexivity].
  destruct (createSession_outcome env); reflexivity.
Qed.

(** C4 (as stated) fails.  A session in which a MULTIPLE_FACES event was
    accepted at [t0 + 1000] is ended and the next one is started at
    [t0 + 2000]: its log is empty, but the map still holds the entry of the
    session before, and the first MULTIPLE_FACES candidate of the new
    session, at [t0 + 3000], is dropped.  Also, with no entry at all in the
    map, a candidate at a clock reading of 2999 is dropped, where the rule of
    the specification accepts it. *)
Lemma first_candidate_of_a_session_can_be_dropped :
  let st := run twoSessions initialState in
  (isSessionActive st = true
   /\ events st = []
   /\ lastEventTimeRef st !! MULTIPLE_FACES = Some (t0 + 1000)
   /\ addEvent (candidate MULTIPLE_FACES) (tick (t0 + 3000)) st
      = (inr tt, st, [])
   /\ ~ specified_debounce (candidate MULTIPLE_FACES) (tick (t0 + 3000)) st)
  /\ (lastEventTimeRef epochSession !! NO_FACE = None
      /\ spec_accepts (lastEventTimeRef epochSession) NO_FACE 2999 = true
      /\ addEvent (candidate NO_FACE) (tick 2999) epochSession
         = (inr tt, epochSession, [])
      /\ ~ specified_debounce (candidate NO_FACE) (tick 2999) epochSession).
Proof.
  assert (Hdrop :
    addEvent (candidate MULTIPLE_FACES) (tick (t0 + 3000))
      (run twoSessions initialState)
    = (inr tt, run twoSessions initialState, [])) by (vm_compute; reflexivity).
  assert (Hearly :
    addEvent (candidate NO_FACE) (tick 2999) epochSession
    = (inr tt, epochSession, [])) by (vm_compute; reflexivity).
  cbv zeta. split.
  - split; [vm_compute; reflexivity|].
    split; [vm_compute; reflexivity|].
    split; [vm_compute; reflexivity|].
    split; [exact Hdrop|].
    unfold specified_debounce, accepted, state_after. rewrite Hdrop.
    intros [_ Hclaim]. apply Hclaim; [|reflexivity].
    left. vm_compute. reflexivity.
  - split; [reflexivity|]. split; [reflexivity|]. split; [exact Hearly|].
    unfold specified_debounce, accepted, state_after. rewrite Hearly.
    intros [_ Hclaim]. apply Hclaim; [|reflexivity].
    left. reflexivity.
Qed.

(** C5.  The object filter returns the elements whose class is not "person":
    the result is a subsequence of the input in the input's order, none of
    its elements is a person, together with the persons it is the whole
    input with every element as often as it occurred (nothing is merged or
    dropped), it distributes over concatenation, and a sequence without a
    person, such as its own result, is returned unchanged. *)
Theorem object_filter_keeps_non_persons (detectedObjects : list Detection) :
  suspiciousObjects detectedObjects `sublist_of` detectedObjects
  /\ (forall obj, obj ∈ suspiciousObjects detectedObjects
                  <-> obj ∈ detectedObjects /\ class obj <> "person")
  /\ suspiciousObjects detectedObjects
       ++ filter (fun obj => class obj = "person") detectedObjects
     ≡ₚ detectedObjects
  /\ (forall more, suspiciousObjects (detectedObjects ++ more)
                   = suspiciousObjects detectedObjects ++ suspiciousObjects more)
  /\ (Forall (fun obj => class obj <> "person") detectedObjects ->
        suspiciousObjects detectedObjects = detectedObjects)
  /\ suspiciousObjects (suspiciousObjects detectedObjects)
     = suspiciousObjects detectedObjects.
Proof.
  unfold suspiciousObjects.
  split; [apply sublist_filter|].
  split.
  { intros obj. rewrite list_elem_of_filter. tauto. }
  split.
  { induction detectedObjects as [|obj l IH]; [reflexivity|].
    rewrite !filter_cons.
    destruct (decide (class obj ≠ "person")) as [Hne|Heq];
      destruct (decide (class obj = "person")) as [Hp|Hnp];
      try contradiction.
    - cbn. now rewrite IH.
    - rewrite <- Permutation_middle. now rewrite IH. }
  split; [intros more; apply filter_app|].
  assert (Hfix : forall l : list Detection,
             Forall (fun obj => class obj <> "person") l ->
             filter (fun obj => class obj <> "person") l = l).
  { induction 1 as [|obj l Hobj _ IH]; [reflexivity|].
    rewrite filter_cons_True by exact Hobj. now rewrite IH. }
  split; [apply Hfix|].
  apply Hfix. apply Forall_forall. intros obj Hin.
  apply list_elem_of_filter in Hin. tauto.
Qed.

Lemma object_filter_keeps_non_persons_witness :
  suspiciousObjects [person; book; phone; book] = [book; phone; book]
  /\ suspiciousObjects [book; phone; book] = [book; phone; book].
Proof.
  split; [reflexivity|].
  destruct (object_filter_keeps_non_persons [book; phone; book])
    as (_ & _ & _ & _ & Hfix & _).
  apply Hfix. repeat constructor; discriminate.
Defined.

End DebounceProps.

(** ** Session life cycle *)

Module SessionProps.

Import FocusDetection Dashboard Runs Samples MoreSamples DebounceProps.

(** *** Reasoning about handlers *)

Lemma hoare_ret {A} (P : State -> Prop) (a : A) : hoare P (ret a) P.
Proof. intros st HP. exact HP. Qed.

Lemma hoare_modify (P Q : State -> Prop) f :
  (forall st, P st -> Q (f st)) -> hoare P (modify f) Q.
Proof. intros Hf st HP. apply Hf, HP. Qed.

Lemma hoare_emit (P : State -> Prop) e : hoare P (emit e) P.
Proof. intros st HP. exact HP. Qed.

Lemma hoare_call {A} (P : State -> Prop) e (o : Outcome A) :
  hoare P (call e o) P.
Proof. intros st HP. unfold state_after, call. destruct o; exact HP. Qed.

Lemma hoare_invoke (P : State -> Prop) e (o : Outcome unit) :
  hoare P (invoke e o) P.
Proof. intros st HP. unfold state_after, invoke. destruct o; exact HP. Qed.

Lemma hoare_throw {A} (P : State -> Prop) error :
  hoare P (@throw A error) P.
Proof. intros st HP. exact HP. Qed.

(** A throw keeps the state of the moment, so the postcondition of a
    sequence has to hold after its first part as well. *)
Lemma hoare_bind {A B} (P Q R : State -> Prop) (m : M A) (k : A -> M B) :
  hoare P m Q -> (forall st, Q st -> R st) ->
  (forall a, hoare Q (k a) R) ->
  hoare P (bind m k) R.
Proof.
  intros Hm Hweak Hk st HP. specialize (Hm st HP).
  unfold state_after, bind in *.
  destruct (m st) as [[[error|a] st1] tr1]; cbn in *.
  - apply Hweak, Hm.
  - specialize (Hk a st1 Hm). unfold state_after in Hk.
    destruct (k a st1) as [[r st2] tr2]. exact Hk.
Qed.

Lemma hoare_get {B} (P R : State -> Prop) (k : State -> M B) :
  (forall st0, hoare (fun st => P st /\ st = st0) (k st0) R) ->
  hoare P (bind get k) R.
Proof.
  intros Hk st HP. specialize (Hk st st (conj HP eq_refl)).
  unfold state_after, bind, get in *.
  destruct (k st st) as [[r st2] tr2]. exact Hk.
Qed.

Lemma hoare_try_catch {A} (P Q R : State -> Prop) (body : M A) handler :
  hoare P body Q -> (forall st, Q st -> R st) ->
  (forall error, hoare Q (handler error) R) ->
  hoare P (try_catch body handler) R.
Proof.
  intros Hbody Hweak Hhandler st HP. specialize (Hbody st HP).
  unfold state_after, try_catch in *.
  destruct (body st) as [[[error|a] st1] tr1]; cbn in *.
  - specialize (Hhandler error st1 Hbody). unfold state_after in Hhandler.
    destruct (handler error st1) as [[r st2] tr2]. exact Hhandler.
  - apply Hweak, Hbody.
Qed.

Lemma hoare_weaken {A} (P P' Q Q' : State -> Prop) (m : M A) :
  hoare P' m Q' -> (forall st, P st -> P' st) -> (forall st, Q' st -> Q st) ->
  hoare P m Q.
Proof. intros Hm Hpre Hpost st HP. apply Hpost, Hm, Hpre, HP. Qed.

(** An invariant of every step of a sequence is an invariant of the
    sequence. *)
Lemma invariant_bind {A B} (I : State -> Prop) (m : M A) (k : A -> M B) :
  hoare I m I -> (forall a, hoare I (k a) I) -> hoare I (bind m k) I.
Proof. intros Hm Hk. apply (hoare_bind I I I); auto. Qed.

Lemma invariant_get {B} (I : State -> Prop) (k : State -> M B) :
  (forall st0, hoare I (k st0) I) -> hoare I (bind get k) I.
Proof.
  intros Hk. apply hoare_get. intros st0.
  apply (hoare_weaken _ I _ I); [apply Hk | tauto | auto].
Qed.

Lemma invariant_try_catch {A} (I : State -> Prop) (body : M A) handler :
  hoare I body I -> (forall error, hoare I (handler error) I) ->
  hoare I (try_catch body handler) I.
Proof. intros Hb Hh. apply (hoare_try_catch I I I); auto. Qed.

(** *** Starting a session *)

(** What [trim] removes: white space of one, two and three bytes at both
    ends, and none inside. *)
Example trim_removes_outer_white_space :
  trim (bytes [32; 194; 160; 9]%nat +:+ "Ada  Lovelace"
        +:+ bytes [227; 128; 128; 10; 226; 128; 175]%nat)
  = "Ada  Lovelace"
  /\ trim wideBlank = ""
  /\ trim "" = ""
  /\ trim (bytes [226; 128; 139]%nat) = bytes [226; 128; 139]%nat.
Proof. repeat split; reflexivity. Qed.

(** C6.  A start request whose candidate name is empty after trimming is
    answered by the alert "Please enter candidate name" and by nothing else:
    the state of the component is the one before the request (no session is
    marked active, no session id or start time is set), no session is created
    and neither the camera nor the recorder is started.  Trimming removes
    the white space and the line terminators of ECMAScript, so this is the
    case of the empty name and of every name made of such characters. *)
Theorem blank_name_is_rejected (env : StartEnv) (st : State) :
  trim (candidateName st) = "" ->
  startSession env st = (inr tt, st, [Alert "Please enter candidate name"]).
Proof.
  intros Hblank. unfold startSession, bind, get. rewrite Hblank. reflexivity.
Qed.

Lemma blank_name_is_rejected_witness :
  trim (candidateName blankName) = ""
  /\ startSession allGood blankName
     = (inr tt, blankName, [Alert "Please enter candidate name"])
  /\ trim (candidateName wideBlankName) = ""
  /\ startSession allGood wideBlankName
     = (inr tt, wideBlankName, [Alert "Please enter candidate name"]).
Proof.
  split; [reflexivity|]. split.
  - apply (blank_name_is_rejected allGood blankName). reflexivity.
  - split; [reflexivity|].
    apply (blank_name_is_rejected allGood wideBlankName). reflexivity.
Defined.

(** [startSession] when the name passed the check and an awaited call is
    rejected: the calls up to the rejected one, then the two reports of the
    [catch] block, and the state as it was. *)
Lemma startSession_failure env st calls error :
  trim (candidateName st) <> "" ->
  start_failure env (trim (candidateName st)) = Some (calls, error) ->
  startSession env st
  = (inr tt, st,
     calls ++ [ConsoleError "Error starting session:" error;
               Alert "Failed to start session. Check console for errors."]).
Proof.
  intros Hname Hfail. unfold startSession, bind, get.
  unfold truthy. rewrite bool_decide_eq_true_2 by exact Hname. cbn [negb].
  unfold start_failure in Hfail.
  unfold try_catch, bind, call, modify, emit.
  destruct (startCamera_outcome env) as [[]|e1].
  - destruct (startRecording_outcome env) as [[]|e2].
    + destruct (createSession_outcome env) as [session|e3].
      * discriminate.
      * injection Hfail as <- <-. reflexivity.
    + injection Hfail as <- <-. reflexivity.
  - injection Hfail as <- <-. reflexivity.
Qed.

(** C7 (as stated) fails on its last part.  The camera and the recorder
    start and the creation of the session fails: the state of the component
    is the one before the request, but the [catch] block of lines 72-75 only
    reports the error, so the camera that was started and the recorder that
    was started are not stopped. *)
Lemma failed_start_leaves_capture_running :
  let st := setCandidateName "Ada" initialState in
  trim (candidateName st) <> ""
  /\ is_rejected (createSession_outcome noSession)
  /\ state_after (startSession noSession) st = st
  /\ trace_of (startSession noSession) st
     = [StartCamera; StartRecording; ApiCreateSession "Ada" t0;
        ConsoleError "Error starting session:" "Network Error";
        Alert "Failed to start session. Check console for errors."]
  /\ ~ capture_released noSession (trace_of (startSession noSession) st).
Proof.
  cbv zeta. split; [vm_compute; discriminate|]. split; [exact I|].
  split; [reflexivity|]. split; [reflexivity|].
  intros [Hcamera _].
  specialize (Hcamera eq_refl). vm_compute in Hcamera.
  specialize (Hcamera (list_elem_of_here _ _)).
  repeat (apply elem_of_cons in Hcamera as [Hcamera|Hcamera];
          [discriminate Hcamera|]).
  inversion Hcamera.
Qed.

(** C7 (as amended).  When the camera, the recorder or the creation of the
    session fails during a start request, the state of the component is the
    one before the request: the session is not marked active, no id, start
    time or interval handle is stored and no interval is set up; the error is
    reported by [console.error] and by the alert "Failed to start session.
    Check console for errors.", after the calls made up to the failing one.
    Nothing is stopped: when the camera was started it stays on, and so does
    the recorder when only the creation of the session failed. *)
Theorem failed_start_stays_idle_and_stops_nothing
    (env : StartEnv) (st : State) :
  trim (candidateName st) <> "" ->
  is_rejected (startCamera_outcome env)
  \/ is_rejected (startRecording_outcome env)
  \/ is_rejected (createSession_outcome env) ->
  state_after (startSession env) st = st
  /\ isSessionActive (state_after (startSession env) st) = isSessionActive st
  /\ Forall (fun e => ~ is_SetInterval e) (trace_of (startSession env) st)
  /\ Forall (fun e => ~ is_release e) (trace_of (startSession env) st)
  /\ (startCamera_outcome env = Resolved tt ->
      StartCamera ∈ trace_of (startSession env) st
      /\ ~ capture_released env (trace_of (startSession env) st))
  /\ (startCamera_outcome env = Resolved tt ->
      startRecording_outcome env = Resolved tt ->
      StartRecording ∈ trace_of (startSession env) st)
  /\ exists calls error,
       start_failure env (trim (candidateName st)) = Some (calls, error)
       /\ calls `prefix_of`
            [StartCamera; StartRecording;
             ApiCreateSession (trim (candidateName st)) (createDate env)]
       /\ startSession env st
          = (inr tt, st,
             calls ++ [ConsoleError "Error starting session:" error;
                       Alert "Failed to start session. Check console for errors."]).
Proof.
  intros Hname Hrej.
  assert (Hfail : exists calls error,
             start_failure env (trim (candidateName st)) = Some (calls, error)
             /\ calls `prefix_of`
                  [StartCamera; StartRecording;
                   ApiCreateSession (trim (candidateName st)) (createDate env)]
             /\ Forall (fun e => ~ is_SetInterval e) calls
             /\ Forall (fun e => ~ is_release e) calls
             /\ (startCamera_outcome env = Resolved tt -> StartCamera ∈ calls)
             /\ (startCamera_outcome env = Resolved tt ->
                 startRecording_outcome env = Resolved tt ->
                 StartRecording ∈ calls)).
  { unfold start_failure.
    destruct (startCamera_outcome env) as [[]|e1].
    - destruct (startRecording_outcome env) as [[]|e2].
      + destruct (createSession_outcome env) as [session|e3].
        * cbn in Hrej. tauto.
        * eexists _, e3. split; [reflexivity|]. split; [reflexivity|].
          split; [repeat constructor; cbn; tauto|].
          split; [repeat constructor; cbn; tauto|].
          split; intros; repeat constructor.
      + eexists _, e2. split; [reflexivity|].
        split; [eexists [_]; reflexivity|].
        split; [repeat constructor; cbn; tauto|].
        split; [repeat constructor; cbn; tauto|].
        split; intros; [repeat constructor | discriminate].
    - eexists _, e1. split; [reflexivity|].
      split; [eexists [_; _]; reflexivity|].
      split; [repeat constructor; cbn; tauto|].
      split; [repeat constructor; cbn; tauto|].
      split; intros; discriminate. }
  destruct Hfail
    as (calls & error & Hfail & Hprefix & Hcalls & Hkept & Hcamera & Hrecorder).
  pose proof (startSession_failure env st calls error Hname Hfail) as Hrun.
  unfold state_after, trace_of. rewrite Hrun. cbn [fst snd].
  assert (Hnone : Forall (fun e => ~ is_release e)
            (calls ++ [ConsoleError "Error starting session:" error;
                       Alert "Failed to start session. Check console for errors."])).
  { apply Forall_app. split; [exact Hkept|]. repeat constructor; cbn; tauto. }
  split; [reflexivity|]. split; [reflexivity|].
  split.
  { apply Forall_app. split; [exact Hcalls|]. repeat constructor; cbn; tauto. }
  split; [exact Hnone|].
  split.
  { intros Hstarted.
    assert (Hin : StartCamera ∈ calls
                    ++ [ConsoleError "Error starting session:" error;
                        Alert "Failed to start session. Check console for errors."]).
    { apply elem_of_app. left. exact (Hcamera Hstarted). }
    split; [exact Hin|].
    intros [Hback _]. specialize (Hback Hstarted Hin).
    rewrite Forall_forall in Hnone. exact (Hnone _ Hback I). }
  split.
  { intros Hstarted Hrecording. apply elem_of_app. left.
    exact (Hrecorder Hstarted Hrecording). }
  exists calls, error. auto.
Qed.

Lemma failed_start_stays_idle_and_stops_nothing_witness :
  let st := setCandidateName "Ada" initialState in
  (state_after (startSession noCamera) st = st
   /\ trace_of (startSession noCamera) st
      = [StartCamera;
         ConsoleError "Error starting session:" "NotAllowedError";
         Alert "Failed to start session. Check console for errors."])
  /\ (state_after (startSession noSession) st = st
      /\ Forall (fun e => ~ is_release e) (trace_of (startSession noSession) st)
      /\ StartCamera ∈ trace_of (startSession noSession) st
      /\ StartRecording ∈ trace_of (startSession noSession) st).
Proof.
  cbv zeta. split.
  - destruct (failed_start_stays_idle_and_stops_nothing noCamera
                (setCandidateName "Ada" initialState))
      as (Hstate & _).
    + vm_compute. discriminate.
    + left. exact I.
    + split; [exact Hstate | reflexivity].
  - destruct (failed_start_stays_idle_and_stops_nothing noSession
                (setCandidateName "Ada" initialState))
      as (Hstate & _ & _ & Hkept & Hcamera & Hrecorder & _).
    + vm_compute. discriminate.
    + right. right. exact I.
    + split; [exact Hstate|]. split; [exact Hkept|].
      split; [exact (proj1 (Hcamera eq_refl)) | exact (Hrecorder eq_refl eq_refl)].
Defined.

(** *** Ending a session *)

Lemma count_type_occurrences t log : count_type t log = occurrences t log.
Proof.
  unfold count_type. induction log as [|e rest IH]; [reflexivity|].
  rewrite filter_cons. cbn [occurrences]. unfold has_type at 1.
  destruct (decide (type (event e) = t)) as [Heq|Hne].
  - rewrite bool_decide_eq_true_2 by exact Heq. cbn. now rewrite IH.
  - rewrite bool_decide_eq_false_2 by exact Hne. cbn. exact IH.
Qed.

Lemma set_spread_from_elem seen l x :
  x ∈ set_spread_from seen l <-> x ∈ l /\ x ∉ seen.
Proof.
  revert seen. induction l as [|y l IH]; intros seen; cbn.
  - rewrite !elem_of_nil. tauto.
  - case_bool_decide as Hseen.
    + rewrite IH, elem_of_cons. split.
      * intros [Hin Hnot]. tauto.
      * intros [[->|Hin] Hnot]; [contradiction | tauto].
    + rewrite !elem_of_cons, IH, elem_of_cons.
      destruct (decide (x = y)) as [->|Hne]; [tauto|]. tauto.
Qed.

Lemma set_spread_from_NoDup seen l : NoDup (set_spread_from seen l).
Proof.
  revert seen. induction l as [|y l IH]; intros seen; cbn.
  - constructor.
  - case_bool_decide as Hseen; [apply IH|].
    constructor; [|apply IH].
    rewrite set_spread_from_elem, elem_of_cons. tauto.
Qed.

Lemma filter_Boolean_elem l c :
  c ∈ filter_Boolean l <-> Some c ∈ l /\ c <> "".
Proof.
  unfold filter_Boolean. rewrite list_elem_of_omap. split.
  - intros ([c'|] & Hin & Hsome); [|discriminate].
    unfold truthy in Hsome. case_bool_decide as Hc; [|discriminate].
    injection Hsome as ->. tauto.
  - intros [Hin Hc]. exists (Some c). split; [exact Hin|].
    unfold truthy. now rewrite bool_decide_eq_true_2.
Qed.

(** The items of the object summary: each once, and exactly the non-empty
    class names of the logged SUSPICIOUS_OBJECT events. *)
Lemma mkObjectSummary_items log :
  NoDup (items (mkObjectSummary log))
  /\ forall c, c ∈ items (mkObjectSummary log) <->
       c <> ""
       /\ exists e, e ∈ log /\ type (event e) = SUSPICIOUS_OBJECT
                    /\ data_class (data (event e)) = Some c.
Proof.
  unfold mkObjectSummary; cbn [items]. unfold set_spread.
  split; [apply set_spread_from_NoDup|].
  intros c. rewrite set_spread_from_elem, filter_Boolean_elem.
  rewrite list_elem_of_fmap. split.
  - intros [[(e & Hclass & Hin) Hc] _]. split; [exact Hc|].
    apply list_elem_of_filter in Hin. destruct Hin as [Htype Hin].
    exists e. auto.
  - intros [Hc (e & Hin & Htype & Hclass)].
    split; [|apply not_elem_of_nil]. split; [|exact Hc].
    exists e. split; [auto|]. apply list_elem_of_filter. auto.
Qed.

(** [endSession] when nothing fails. *)
Lemma endSession_success env st start :
  sessionStartTime st = Some start ->
  stopRecording_outcome env = Resolved tt ->
  stopCamera_outcome env = Resolved tt ->
  endSession_outcome env = Resolved tt ->
  onSessionComplete_outcome env = Resolved tt ->
  endSession env st
  = (inr tt,
     setSessionTimer (fun _ => 0)
       (setCandidateName ""
          (setSessionId None (setIsSessionActive false st))),
     [ClearInterval (intervalRef st); ClearInterval (timerIntervalRef st);
      StopRecording; StopCamera;
      ApiEndSession (sessionId st) (mkSessionData st start (endDate env));
      OnSessionComplete (mkSessionData st start (endDate env))]).
Proof.
  intros Hstart Hrec Hcam Hend Hdone.
  unfold endSession, bind, get, try_catch, bind, call, invoke, emit, modify, ret.
  rewrite Hstart, Hrec, Hcam, Hend, Hdone. reflexivity.
Qed.

(** C9 (as amended).  When a session with start time [start] is ended and
    no call fails, the record handed to [apiService.endSession] and to
    [onSessionComplete] has the end time read at line 85, a duration of
    [(endTime - startTime) / 1000] seconds, the log of the session, the four
    counts of the logged FOCUS_LOST, NO_FACE, MULTIPLE_FACES and EYE_CLOSURE
    events, the number of logged SUSPICIOUS_OBJECT events as total, and as
    items the distinct non-empty class names of those events; the component
    is no longer active afterwards. *)
Theorem final_report_aggregates_the_log
    (env : EndEnv) (st : State) (start : Z) :
  sessionStartTime st = Some start ->
  stopRecording_outcome env = Resolved tt ->
  stopCamera_outcome env = Resolved tt ->
  endSession_outcome env = Resolved tt ->
  onSessionComplete_outcome env = Resolved tt ->
  exists sessionData,
    trace_of (endSession env) st
    = [ClearInterval (intervalRef st); ClearInterval (timerIntervalRef st);
       StopRecording; StopCamera;
       ApiEndSession (sessionId st) sessionData;
       OnSessionComplete sessionData]
    /\ isSessionActive (state_after (endSession env) st) = false
    /\ startTime sessionData = start
    /\ endTime sessionData = endDate env
    /\ (1000 * duration sessionData
        == inject_Z (endTime sessionData - startTime sessionData))%Q
    /\ sd_events sessionData = events st
    /\ focusLostCount (focusSummary sessionData)
       = occurrences FOCUS_LOST (events st)
    /\ noFaceCount (focusSummary sessionData)
       = occurrences NO_FACE (events st)
    /\ multipleFacesCount (focusSummary sessionData)
       = occurrences MULTIPLE_FACES (events st)
    /\ eyeClosureCount (focusSummary sessionData)
       = occurrences EYE_CLOSURE (events st)
    /\ totalDetections (objectSummary sessionData)
       = occurrences SUSPICIOUS_OBJECT (events st)
    /\ NoDup (items (objectSummary sessionData))
    /\ forall c, c ∈ items (objectSummary sessionData) <->
         c <> ""
         /\ exists e, e ∈ events st /\ type (event e) = SUSPICIOUS_OBJECT
                      /\ data_class (data (event e)) = Some c.
Proof.
  intros Hstart Hrec Hcam Hend Hdone.
  exists (mkSessionData st start (endDate env)).
  unfold trace_of, state_after.
  rewrite (endSession_success env st start Hstart Hrec Hcam Hend Hdone).
  cbn [fst snd mkSessionData startTime endTime duration sd_events
       focusSummary objectSummary].
  split; [reflexivity|]. split; [reflexivity|].
  split; [reflexivity|]. split; [reflexivity|].
  split.
  { apply Qmult_div_r. discriminate. }
  split; [reflexivity|].
  unfold mkFocusSummary; cbn [focusLostCount noFaceCount multipleFacesCount
                                eyeClosureCount].
  do 5 (split; [apply count_type_occurrences|]).
  apply mkObjectSummary_items.
Qed.

Lemma final_report_aggregates_the_log_witness :
  let st :=
    setEvents (fun _ => [logged (objectEvent book) (t0 + 4000);
                         logged (candidate NO_FACE) (t0 + 20000);
                         logged (objectEvent phone) (t0 + 30000);
                         logged (objectEvent book) (t0 + 40000)]) running in
  exists sessionData,
    trace_of (endSession (endsWell (t0 + 90500))) st
    = [ClearInterval (Some 1); ClearInterval (Some 2);
       StopRecording; StopCamera;
       ApiEndSession (Some "s1") sessionData;
       OnSessionComplete sessionData]
    /\ (duration sessionData == 181 # 2)%Q
    /\ noFaceCount (focusSummary sessionData) = 1%nat
    /\ totalDetections (objectSummary sessionData) = 3%nat
    /\ items (objectSummary sessionData) = ["book"; "cell phone"].
Proof.
  cbv zeta.
  destruct (final_report_aggregates_the_log (endsWell (t0 + 90500))
              (setEvents (fun _ => [logged (objectEvent book) (t0 + 4000);
                                    logged (candidate NO_FACE) (t0 + 20000);
                                    logged (objectEvent phone) (t0 + 30000);
                                    logged (objectEvent book) (t0 + 40000)])
                 running) t0)
    as (sessionData & Htrace & _); try reflexivity.
  exists sessionData. split; [exact Htrace|].
  injection Htrace as <-. vm_compute. repeat split.
Defined.

(** C9 (as stated) fails on the items.  During a session an object is
    reported whose class name is the empty string: the SUSPICIOUS_OBJECT
    event is logged and counted, and the items of the summary are empty. *)
Lemma empty_class_name_is_not_an_item :
  let st := run unnamedObject initialState in
  let sessionData := mkSessionData st t0 (t0 + 60000) in
  events st = [unnamedLogged]
  /\ totalDetections (objectSummary sessionData) = 1%nat
  /\ items (objectSummary sessionData) = []
  /\ ~ items_as_specified (items (objectSummary sessionData)) (events st).
Proof.
  assert (Hlog : events (run unnamedObject initialState) = [unnamedLogged])
    by (vm_compute; reflexivity).
  cbv zeta. split; [exact Hlog|].
  split; [vm_compute; reflexivity|].
  assert (Hitems :
    items (objectSummary
             (mkSessionData (run unnamedObject initialState) t0 (t0 + 60000)))
    = []) by (vm_compute; reflexivity).
  split; [exact Hitems|].
  rewrite Hitems. intros [_ Hspec].
  apply (not_elem_of_nil ""). apply Hspec.
  exists unnamedLogged. rewrite Hlog.
  split; [apply list_elem_of_here | split; reflexivity].
Qed.

(** *** The event types of the log *)

Lemma addEvent_engine_types ev clock :
  engine_type (type ev) ->
  hoare log_of_engine_types (addEvent ev clock) log_of_engine_types.
Proof.
  intros Hty st Hlog. unfold state_after. rewrite addEvent_unfold.
  destruct (_ <? _); cbn; [exact Hlog|].
  unfold log_of_engine_types; cbn.
  apply Forall_app. split; [exact Hlog|].
  constructor; [exact Hty | constructor].
Qed.

Ltac engine_type_here := unfold engine_type; cbn; set_solver.

Lemma focusEffect_engine_types focusData cFocus cFace cMulti :
  hoare log_of_engine_types (focusEffect focusData cFocus cFace cMulti)
    log_of_engine_types.
Proof.
  unfold focusEffect. apply invariant_get. intros st0.
  destruct (negb (isSessionActive st0)); [apply hoare_ret|].
  repeat (apply invariant_bind; [|intros _]);
    match goal with
    | |- hoare _ (if ?c then _ else _) _ =>
        destruct c; [apply addEvent_engine_types; engine_type_here
                    | apply hoare_ret]
    end.
Qed.

Lemma forEach_from_invariant {A} (I : State -> Prop) (f : nat -> A -> M unit) :
  (forall i x, hoare I (f i x) I) ->
  forall l i, hoare I (forEach_from i l f) I.
Proof.
  intros Hf l. induction l as [|x l IH]; intros i; cbn.
  - apply hoare_ret.
  - apply invariant_bind; [apply Hf | intros _; apply IH].
Qed.

Lemma objectEffect_engine_types detectedObjects clockAt :
  hoare log_of_engine_types (objectEffect detectedObjects clockAt)
    log_of_engine_types.
Proof.
  unfold objectEffect. apply invariant_get. intros st0.
  destruct (negb (isSessionActive st0)); [apply hoare_ret|].
  destruct (0 <? length _)%nat; [|apply hoare_ret].
  apply forEach_from_invariant. intros i obj.
  apply addEvent_engine_types. engine_type_here.
Qed.

Lemma startSession_engine_types env :
  hoare log_of_engine_types (startSession env) log_of_engine_types.
Proof.
  unfold startSession. apply invariant_get. intros st0.
  destruct (negb _); [apply hoare_emit|].
  apply invariant_try_catch.
  - repeat (apply invariant_bind; [|intros]);
      try apply hoare_call; try apply hoare_emit;
      apply hoare_modify; intros st Hlog; try exact Hlog.
    constructor.
  - intros error. apply invariant_bind; [|intros]; apply hoare_emit.
Qed.

Lemma endSession_engine_types env :
  hoare log_of_engine_types (endSession env) log_of_engine_types.
Proof.
  unfold endSession. apply invariant_get. intros st0.
  apply invariant_try_catch; [|intros error; apply hoare_emit].
  repeat (apply invariant_bind; [|intros]);
    try apply hoare_call; try apply hoare_invoke; try apply hoare_emit;
    try (apply hoare_modify; intros st Hlog; exact Hlog).
  destruct (sessionStartTime st0); [apply hoare_ret | apply hoare_throw].
Qed.

Lemma perform_engine_types a :
  hoare log_of_engine_types (perform a) log_of_engine_types.
Proof.
  destruct a; cbn [perform].
  - apply hoare_modify. intros st Hlog. exact Hlog.
  - apply startSession_engine_types.
  - apply endSession_engine_types.
  - apply focusEffect_engine_types.
  - apply objectEffect_engine_types.
  - apply hoare_modify. intros st Hlog. exact Hlog.
Qed.

Lemma reachable_engine_types st : reachable st -> log_of_engine_types st.
Proof.
  induction 1 as [|a st Hreach IH Henabled].
  - constructor.
  - apply perform_engine_types, IH.
Qed.

(** C10.  In every state that the component can reach, no event of the log
    has the type EYE_CLOSURE (every logged event has one of the four types
    that the two effects construct), and the eye-closure count of the report
    built from such a state is 0. *)
Theorem no_eye_closure_event_is_logged (st : State) :
  reachable st ->
  Forall (fun e => type (event e) <> EYE_CLOSURE) (events st)
  /\ Forall (fun e => engine_type (type (event e))) (events st)
  /\ forall start sessionEndTime,
       eyeClosureCount (focusSummary (mkSessionData st start sessionEndTime))
       = 0%nat.
Proof.
  intros Hreach. pose proof (reachable_engine_types st Hreach) as Hlog.
  assert (Hnone : Forall (fun e => type (event e) <> EYE_CLOSURE) (events st)).
  { eapply Forall_impl; [exact Hlog|]. cbn. intros e Hty Heq.
    unfold engine_type in Hty. rewrite Heq in Hty.
    repeat (apply elem_of_cons in Hty as [Hty|Hty]; [discriminate|]).
    now apply elem_of_nil in Hty. }
  split; [exact Hnone|]. split; [exact Hlog|].
  intros start sessionEndTime. cbn.
  induction Hnone as [|e log He _ IH]; [reflexivity|].
  rewrite filter_cons_False by exact He. apply IH.
Qed.

Lemma run_reachable actions st : reachable st -> reachable (run actions st).
Proof.
  revert st. induction actions as [|a rest IH]; intros st Hreach; cbn.
  - exact Hreach.
  - destruct (enabled a st) eqn:Henabled; apply IH; [|exact Hreach].
    now apply reachable_step.
Defined.

Lemma no_eye_closure_event_is_logged_witness :
  let st := run twoSessions initialState in
  Forall (fun e => type (event e) <> EYE_CLOSURE) (events st)
  /\ eyeClosureCount (focusSummary (mkSessionData st t0 (t0 + 60000))) = 0%nat.
Proof.
  cbv zeta.
  destruct (no_eye_closure_event_is_logged (run twoSessions initialState))
    as (Hnone & _ & Hcount).
  - apply run_reachable. apply reachable_initial.
  - split; [exact Hnone | apply Hcount].
Defined.

End SessionProps.

(** ** Scenario: eleven seconds without a face *)

Module PipelineProps.

Import FocusDetection Dashboard Pipeline Samples.
Import FocusProps DebounceProps SessionProps.

(** An event of another type leaves the view of a type as it is. *)
Lemma addEvent_other_type t ev clock st :
  type ev <> t ->
  debounce_view t (state_after (addEvent ev clock) st) = debounce_view t st.
Proof.
  intros Hne. unfold state_after. rewrite addEvent_unfold.
  destruct (_ <? _); [reflexivity|].
  unfold debounce_view, count_type; cbn.
  rewrite lookup_insert_ne by exact Hne.
  rewrite filter_app, filter_cons_False by exact Hne.
  rewrite filter_nil, app_nil_r. reflexivity.
Qed.



Lemma state_after_bind_returns {A B} (m : M A) (k : A -> M B) st a :
  fst (fst (m st)) = inr a ->
  state_after (bind m k) st = state_after (k a) (state_after m st).
Proof.
  unfold state_after, bind. destruct (m st) as [[r st1] tr1]; cbn.
  intros ->. destruct (k a st1) as [[r2 st2] tr2]. reflexivity.
Qed.

Lemma guarded_addEvent_returns (b : bool) ev clock st :
  fst (fst ((if b then addEvent ev clock else ret tt) st)) = inr tt.
Proof.
  destruct b; [|reflexivity]. rewrite addEvent_unfold.
  destruct (_ <? _); reflexivity.
Qed.



Section FrameProps.

Variable Landmarks : Type.
Variable calculateGaze : Landmarks -> GazeData.

Lemma frame_step_no_face f m t :
  empty_frame_at t f ->
  exists newFocusData,
    frame_step calculateGaze f m
    = {| focus := newFocusData;
         refs := refs m;
         dash := state_after
                   (focusEffect newFocusData (cFocus f) (cFace f) (cMulti f))
                   (dash m) |}
    /\ faceDetected newFocusData = false
    /\ lookingAtScreen newFocusData = false
    /\ noFaceDuration newFocusData = t - lastFaceTime (refs m)
    /\ focusScore newFocusData = calculateFocusScore newFocusData.
Proof.
  intros (Hready & Hzero & Htime). unfold frame_step.
  destruct (onFaceResults_no_face Landmarks calculateGaze
              (seen f) (refs m) (results f) (at_time f) Hzero)
    as (newFocusData & Hrun & Hface & Hlook & Hnoface & _).
  pose proof (onFaceResults_emits Landmarks calculateGaze
                true (seen f) (refs m) (results f) (at_time f)) as Hscore.
  rewrite Hready, Hrun. rewrite Hrun in Hscore. destruct Hscore as [_ Hscore].
  exists newFocusData. rewrite <- Htime. auto.
Qed.



End FrameProps.



End PipelineProps.

(** ** More on the frame handler and the score *)

Module HandlerExtras.

Import FocusDetection Dashboard Pipeline Runs Samples MoreSamples.
Import FocusProps.

(** X1.  With at least one face every field of the stored state is assigned: the
    result is the same whatever state the handler copied, the first face
    alone decides the two gaze flags, and the refs are moved to the time of
    the frame as far as the face and the gaze allow. *)
Theorem face_frame_overwrites_every_field
    (Landmarks : Type) (calculateGaze : Landmarks -> GazeData)
    (focusData focusData' : FocusData) (refs : Refs)
    (landmarks : Landmarks) (others : list Landmarks) (currentTime : Z) :
  exists newFocusData newRefs,
    onFaceResults calculateGaze true focusData refs
      {| multiFaceLandmarks := Some (landmarks :: others) |} currentTime
    = Some (newFocusData, newRefs)
    /\ onFaceResults calculateGaze true focusData' refs
         {| multiFaceLandmarks := Some (landmarks :: others) |} currentTime
       = Some (newFocusData, newRefs)
    /\ faceDetected newFocusData = true
    /\ multipleFaces newFocusData = bool_decide (others <> [])
    /\ noFaceDuration newFocusData = 0
    /\ lastFaceTime newRefs = currentTime
    /\ lookingAtScreen newFocusData
       = gaze_lookingAtScreen (calculateGaze landmarks)
    /\ eyeClosure newFocusData = gaze_eyeClosure (calculateGaze landmarks)
    /\ (if gaze_lookingAtScreen (calculateGaze landmarks)
        then focusLostDuration newFocusData = 0
             /\ lastFocusTime newRefs = currentTime
        else focusLostDuration newFocusData = currentTime - lastFocusTime refs
             /\ lastFocusTime newRefs = lastFocusTime refs).
Proof.
  unfold onFaceResults; cbn [negb multiFaceLandmarks].
  assert (Hmulti : (1 <? length (landmarks :: others))%nat
                   = bool_decide (others <> [])).
  { destruct others; reflexivity. }
  destruct (gaze_lookingAtScreen (calculateGaze landmarks)) eqn:Hlook;
    do 2 eexists; (split; [reflexivity|]); (split; [reflexivity|]);
    cbn; rewrite ?Hlook; repeat split; try reflexivity; exact Hmulti.
Qed.

(** One frame on a clock that has not run backwards: the order of the two
    refs and of the two durations is kept. *)
Lemma onFaceResults_keeps_order
    (Landmarks : Type) (calculateGaze : Landmarks -> GazeData)
    ready focusData refs results currentTime newFocusData newRefs :
  onFaceResults calculateGaze ready focusData refs results currentTime
    = Some (newFocusData, newRefs) ->
  lastFocusTime refs <= lastFaceTime refs <= currentTime ->
  lastFocusTime newRefs <= lastFaceTime newRefs <= currentTime
  /\ lastFaceTime refs <= lastFaceTime newRefs
  /\ durations_ordered newFocusData.
Proof.
  unfold onFaceResults, durations_ordered.
  destruct ready; cbn [negb]; [|discriminate].
  destruct (multiFaceLandmarks results) as [[|landmarks others]|].
  - intros [= <- <-] Horder. cbn. lia.
  - destruct (gaze_lookingAtScreen (calculateGaze landmarks));
      intros [= <- <-] Horder; cbn; lia.
  - intros [= <- <-] Horder. cbn. lia.
Qed.

(** X2.  On a clock that never runs backwards, a sequence of frames keeps the
    last time of focus at or before the last time a face was seen, and the
    stored durations satisfy [0 <= noFaceDuration <= focusLostDuration]: the
    time without a face is never negative and never longer than the time
    without focus. *)
Theorem frames_keep_durations_ordered
    (Landmarks : Type) (calculateGaze : Landmarks -> GazeData)
    (frames : list (Frame Landmarks)) (m : Monitor) (t : Z) :
  lastFocusTime (refs m) <= lastFaceTime (refs m) <= t ->
  durations_ordered (focus m) ->
  clock_monotone t frames ->
  lastFocusTime (refs (run_frames calculateGaze frames m))
    <= lastFaceTime (refs (run_frames calculateGaze frames m))
  /\ lastFaceTime (refs m)
     <= lastFaceTime (refs (run_frames calculateGaze frames m))
  /\ durations_ordered (focus (run_frames calculateGaze frames m)).
Proof.
  revert m t. induction frames as [|f rest IH]; intros m t Hrefs Hdur Hclock.
  - cbn. repeat split; [lia | lia | apply Hdur | apply Hdur].
  - cbn in Hclock. destruct Hclock as [Hnow Hrest]. cbn [run_frames].
    assert (Hstep :
      lastFocusTime (refs (frame_step calculateGaze f m))
        <= lastFaceTime (refs (frame_step calculateGaze f m)) <= at_time f
      /\ lastFaceTime (refs m)
         <= lastFaceTime (refs (frame_step calculateGaze f m))
      /\ durations_ordered (focus (frame_step calculateGaze f m))).
    { unfold frame_step.
      destruct (onFaceResults calculateGaze (ready f) (seen f) (refs m)
                  (results f) (at_time f))
        as [[newFocusData newRefs]|] eqn:Hrun.
      - cbn [refs focus].
        apply (onFaceResults_keeps_order _ _ _ _ _ _ _ _ _ Hrun). lia.
      - repeat split; [lia | lia | lia | apply Hdur | apply Hdur]. }
    destruct Hstep as (Hrefs' & Hface & Hdur').
    destruct (IH _ _ Hrefs' Hdur' Hrest) as (H1 & H2 & H3).
    repeat split; [exact H1 | lia | apply H3 | apply H3].
Qed.

Lemma frames_keep_durations_ordered_witness :
  let m := run_frames sampleGaze
             [attentiveFrame (t0 + 1000); awayFrame (t0 + 4000);
              emptyFrame (t0 + 5000)] (watching t0) in
  lastFocusTime (refs m) <= lastFaceTime (refs m)
  /\ noFaceDuration (focus m) = 1000
  /\ focusLostDuration (focus m) = 4000
  /\ durations_ordered (focus m).
Proof.
  cbv zeta.
  destruct (frames_keep_durations_ordered GazeData sampleGaze
              [attentiveFrame (t0 + 1000); awayFrame (t0 + 4000);
               emptyFrame (t0 + 5000)] (watching t0) t0)
    as (Hrefs & _ & Hdur).
  - cbn. lia.
  - unfold durations_ordered. cbn. lia.
  - cbn. lia.
  - split; [exact Hrefs|]. split; [reflexivity|]. split; [reflexivity|].
    exact Hdur.
Defined.

(** X3.  The score is 100 exactly when no penalty applies: a face is detected
    and looks at the screen, it is alone, its eyes are open, and neither
    duration is past its threshold.  Any penalty brings the score to 85 or
    less. *)
Theorem full_score_iff_nothing_wrong (data : FocusData) :
  (calculateFocusScore data = 100 <->
     faceDetected data = true /\ lookingAtScreen data = true
     /\ multipleFaces data = false /\ eyeClosure data = false
     /\ focusLostDuration data <= 5000 /\ noFaceDuration data <= 10000)
  /\ (calculateFocusScore data = 100 \/ calculateFocusScore data <= 85).
Proof.
  unfold calculateFocusScore.
  destruct (faceDetected data), (lookingAtScreen data), (multipleFaces data),
    (eyeClosure data), (Z.ltb_spec 5000 (focusLostDuration data)),
    (Z.ltb_spec 10000 (noFaceDuration data)); cbn;
    (split; [split; [intros Hscore; try discriminate Hscore;
                     repeat split; (reflexivity || lia)
                    | intros (? & ? & ? & ? & ? & ?);
                      try discriminate; try lia; reflexivity]
            | try (left; reflexivity); right; lia]).
Qed.

(** X4.  A state stored for a frame without a face scores at most 30: the
    penalties for the missing face and for not looking at the screen always
    apply together. *)
Theorem no_face_scores_at_most_30
    (Landmarks : Type) (calculateGaze : Landmarks -> GazeData)
    ready focusData refs results currentTime newFocusData newRefs :
  onFaceResults calculateGaze ready focusData refs results currentTime
    = Some (newFocusData, newRefs) ->
  faceDetected newFocusData = false ->
  lookingAtScreen newFocusData = false /\ focusScore newFocusData <= 30.
Proof.
  intros Hrun Hface.
  pose proof (onFaceResults_emits Landmarks calculateGaze
                ready focusData refs results currentTime) as Hemit.
  rewrite Hrun in Hemit. destruct Hemit as [_ Hscore].
  assert (Hlook : lookingAtScreen newFocusData = false).
  { revert Hrun Hface. unfold onFaceResults.
    destruct ready; cbn [negb]; [|discriminate].
    destruct (multiFaceLandmarks results) as [[|landmarks others]|].
    - intros [= <- <-] _. reflexivity.
    - destruct (gaze_lookingAtScreen (calculateGaze landmarks));
        intros [= <- <-]; cbn; discriminate.
    - intros [= <- <-] _. reflexivity. }
  split; [exact Hlook|].
  rewrite Hscore. unfold calculateFocusScore. rewrite Hface, Hlook. cbn [negb].
  destruct (multipleFaces newFocusData), (eyeClosure newFocusData),
    (5000 <? focusLostDuration newFocusData),
    (10000 <? noFaceDuration newFocusData); cbn; lia.
Qed.

Lemma no_face_scores_at_most_30_witness :
  exists newFocusData,
    onFaceResults sampleGaze true initialFocusData
      {| lastFocusTime := t0; lastFaceTime := t0 |} noFaces (t0 + 1000)
    = Some (newFocusData, {| lastFocusTime := t0; lastFaceTime := t0 |})
    /\ focusScore newFocusData = 30.
Proof.
  eexists. split; [reflexivity|].
  destruct (no_face_scores_at_most_30 GazeData sampleGaze true
              initialFocusData {| lastFocusTime := t0; lastFaceTime := t0 |}
              noFaces (t0 + 1000) _ _ eq_refl eq_refl) as [_ Hle].
  reflexivity.
Defined.

End HandlerExtras.

(** ** More on the debouncer and the two effects *)

Module DebounceExtras.

Import FocusDetection Dashboard Pipeline Runs Samples MoreSamples.
Import DebounceProps PipelineProps.

Lemma or_zero_Some_bound a n : n < a + 3000 -> n - or_zero (Some a) < 3000.
Proof. unfold or_zero. destruct (Z.eqb_spec a 0); lia. Qed.

Lemma accepted_iff ev clock st :
  accepted ev clock st
  <-> 3000 <= now clock - or_zero (lastEventTimeRef st !! type ev).
Proof.
  unfold accepted, state_after. rewrite addEvent_unfold.
  destruct (Z.ltb_spec (now clock - or_zero (lastEventTimeRef st !! type ev))
              3000) as [Hlt|Hge]; cbn.
  - split; [congruence | lia].
  - split; [intros _; exact Hge|]. intros _ Heq.
    apply (f_equal length) in Heq. rewrite length_app in Heq. cbn in Heq. lia.
Qed.

Lemma addEvent_returns ev clock st : fst (fst (addEvent ev clock st)) = inr tt.
Proof. apply (guarded_addEvent_returns true). Qed.

(** X5.  The debouncer keeps the types apart: whether a candidate is accepted
    does not depend on a candidate of another type handled before it, and
    the debounce map that two candidates of different types leave behind is
    the same in either order. *)
Theorem debounce_types_are_independent
    (ev1 ev2 : Event) (clock1 clock2 : Clock) (st : State) :
  type ev1 <> type ev2 ->
  (accepted ev2 clock2 (state_after (addEvent ev1 clock1) st)
   <-> accepted ev2 clock2 st)
  /\ lastEventTimeRef
       (state_after (addEvent ev2 clock2) (state_after (addEvent ev1 clock1) st))
     = lastEventTimeRef
         (state_after (addEvent ev1 clock1) (state_after (addEvent ev2 clock2) st)).
Proof.
  intros Hne.
  pose proof (addEvent_other_type (type ev2) ev1 clock1 st Hne) as Hview12.
  pose proof (addEvent_other_type (type ev1) ev2 clock2 st (not_eq_sym Hne))
    as Hview21.
  injection Hview12 as _ Hentry2 _. injection Hview21 as _ Hentry1 _.
  split.
  - rewrite !accepted_iff, Hentry2. reflexivity.
  - unfold state_after in *. rewrite !addEvent_unfold in *.
    destruct (now clock1 - or_zero (lastEventTimeRef st !! type ev1) <? 3000)
      eqn:H1;
      destruct (now clock2 - or_zero (lastEventTimeRef st !! type ev2) <? 3000)
        eqn:H2; cbn in *; rewrite ?H1, ?H2; cbn;
      rewrite ?Hentry1, ?Hentry2, ?H1, ?H2; cbn; try reflexivity.
    apply insert_insert_ne. exact (not_eq_sym Hne).
Qed.

Lemma debounce_types_are_independent_witness :
  accepted (candidate NO_FACE) (tick (t0 + 100))
    (state_after (addEvent (objectEventOf book) (tick t0)) running)
  <-> accepted (candidate NO_FACE) (tick (t0 + 100)) running.
Proof.
  apply (debounce_types_are_independent (objectEventOf book)
           (candidate NO_FACE) (tick t0) (tick (t0 + 100)) running).
  discriminate.
Defined.

Lemma forEach_from_cons {A} (f : nat -> A -> M unit) i x l st :
  fst (fst (f i x st)) = inr tt ->
  state_after (forEach_from i (x :: l) f) st
  = state_after (forEach_from (S i) l f) (state_after (f i x) st).
Proof.
  intros Hret.
  apply (state_after_bind_returns (f i x) (fun _ => forEach_from (S i) l f)
           st tt Hret).
Qed.

(** X6.  Inside the cooldown of a type nothing of that type enters the log:
    after an event of type [t] was accepted at time [a], a run of candidates
    of any types leaves the entry and the number of logged events of type [t]
    as they are, as long as its candidates of type [t] come before
    [a + 3000]. *)
Theorem cooldown_blocks_the_type
    (candidates : list (Event * Clock)) (st : State) (t : EventType) (a : Z) :
  lastEventTimeRef st !! t = Some a ->
  (forall c, c ∈ candidates -> type (fst c) = t -> now (snd c) < a + 3000) ->
  lastEventTimeRef (state_after (addEvents candidates) st) !! t = Some a
  /\ count_type t (events (state_after (addEvents candidates) st))
     = count_type t (events st).
Proof.
  unfold addEvents, forEach. generalize 0%nat as i.
  revert st. induction candidates as [|c rest IH]; intros st i Hentry Hcool.
  - split; [exact Hentry | reflexivity].
  - rewrite forEach_from_cons by apply addEvent_returns.
    assert (Hview : debounce_view t (state_after (addEvent (fst c) (snd c)) st)
                    = debounce_view t st).
    { destruct (decide (type (fst c) = t)) as [Heq|Hne].
      - unfold state_after. rewrite addEvent_dropped; [reflexivity|].
        rewrite Heq, Hentry. apply or_zero_Some_bound.
        apply Hcool; [apply list_elem_of_here | exact Heq].
      - apply addEvent_other_type. exact Hne. }
    injection Hview as _ Hentry' Hcount'.
    destruct (IH (state_after (addEvent (fst c) (snd c)) st) (S i)) as [H1 H2].
    + rewrite Hentry'. exact Hentry.
    + intros c' Hin. apply Hcool. now apply list_elem_of_further.
    + split; [exact H1 | now rewrite H2].
Qed.

Lemma cooldown_blocks_the_type_witness :
  count_type SUSPICIOUS_OBJECT
    (events (state_after
               (addEvents [(objectEventOf phone, tick (t0 + 1000));
                           (candidate NO_FACE, tick (t0 + 20000));
                           (objectEventOf book, tick (t0 + 2999))])
               afterObject))
  = 1%nat.
Proof.
  destruct (cooldown_blocks_the_type
              [(objectEventOf phone, tick (t0 + 1000));
               (candidate NO_FACE, tick (t0 + 20000));
               (objectEventOf book, tick (t0 + 2999))]
              afterObject SUSPICIOUS_OBJECT t0) as [_ Hcount].
  - reflexivity.
  - intros c Hin Hty.
    repeat (apply elem_of_cons in Hin as [->|Hin];
            [try discriminate Hty; cbn; lia|]).
    now apply elem_of_nil in Hin.
  - rewrite Hcount. reflexivity.
Defined.

(** *** What one run of an effect puts into the log *)

Lemma forEach_from_all_dropped (clockAt : nat -> Clock) (a : Z) :
  forall (rest : list Detection) (i : nat) (st : State),
    or_zero (lastEventTimeRef st !! SUSPICIOUS_OBJECT) = a ->
    (forall j, now (clockAt j) < a + 3000) ->
    state_after
      (forEach_from i rest
         (fun j obj => addEvent (objectEventOf obj) (clockAt j))) st
    = st.
Proof.
  induction rest as [|obj rest IH]; intros i st Hentry Hcool; [reflexivity|].
  rewrite forEach_from_cons by apply addEvent_returns.
  assert (Hdrop : state_after (addEvent (objectEventOf obj) (clockAt i)) st = st).
  { unfold state_after. rewrite addEvent_dropped; [reflexivity|].
    cbn [type objectEventOf]. rewrite Hentry. specialize (Hcool i). lia. }
  rewrite Hdrop. now apply IH.
Qed.

(** X7.  One run of the effect on [objectData] whose calls of [addEvent] lie
    within 3000 ms of the first logs one event only: when the candidate for
    the first suspicious object is accepted, every further object of the same
    frame is dropped, whatever its class.  The logged event is the one built
    for the first suspicious object; its message gives the confidence in
    percent, the double product with 100 rounded by [Math.round]. *)
Theorem one_object_event_per_frame
    (detectedObjects : list Detection) (clockAt : nat -> Clock) (st : State)
    (obj : Detection) (rest : list Detection) :
  isSessionActive st = true ->
  suspiciousObjects detectedObjects = obj :: rest ->
  3000 <= now (clockAt 0%nat)
          - or_zero (lastEventTimeRef st !! SUSPICIOUS_OBJECT) ->
  (forall j, now (clockAt j) < now (clockAt 0%nat) + 3000) ->
  events (state_after (objectEffect detectedObjects clockAt) st)
    = events st ++ [stamped (objectEventOf obj) (clockAt 0%nat) st]
  /\ lastEventTimeRef (state_after (objectEffect detectedObjects clockAt) st)
     = <[SUSPICIOUS_OBJECT := now (clockAt 0%nat)]> (lastEventTimeRef st).
Proof.
  intros Hactive Hsusp Hfirst Hcool. unfold objectEffect.
  rewrite (state_after_bind_returns get _ st st) by reflexivity.
  change (state_after get st) with st. rewrite Hactive, Hsusp. cbn [negb].
  change (0 <? length (obj :: rest))%nat with true. cbv iota.
  unfold forEach.
  change (forEach_from 0 (obj :: rest) _)
    with (forEach_from 0 (obj :: rest)
            (fun j o => addEvent (objectEventOf o) (clockAt j))).
  rewrite forEach_from_cons by apply addEvent_returns.
  rewrite (forEach_from_all_dropped clockAt (now (clockAt 0%nat))).
  - rewrite addEvent_accepted by exact Hfirst. split; reflexivity.
  - rewrite addEvent_accepted by exact Hfirst. cbn. apply or_zero_insert.
  - exact Hcool.
Qed.

Lemma one_object_event_per_frame_witness :
  events (state_after
            (objectEffect [person; faintBook; phone; book]
               (fun j => tick (t0 + 5000 + Z.of_nat (Nat.min j 3)))) running)
  = [stamped (objectEventOf faintBook) (tick (t0 + 5000)) running]
  /\ message (objectEventOf faintBook) = "book detected (16% confidence)".
Proof.
  split; [|reflexivity].
  apply (one_object_event_per_frame [person; faintBook; phone; book]
           (fun j => tick (t0 + 5000 + Z.of_nat (Nat.min j 3))) running
           faintBook [phone; book]).
  - reflexivity.
  - reflexivity.
  - vm_compute. discriminate.
  - intros j. cbn [now tick]. lia.
Defined.

(** The percentage of a message is [Math.round] of the double product.  The
    confidence 0.155 is a double slightly below the decimal number; its
    product with 100 is rounded to the double 15.5, and [Math.round] takes
    that to 16. *)
Example message_rounds_the_double_product :
  map (fun obj => message (objectEventOf obj)) [book; phone; faintBook; unnamed]
  = ["book detected (87% confidence)"; "cell phone detected (61% confidence)";
     "book detected (16% confidence)"; " detected (50% confidence)"].
Proof. reflexivity. Qed.

Lemma focusEffect_idle focusData cFocus cFace cMulti st :
  isSessionActive st = false
  \/ (focusLostDuration focusData <= 5000
      /\ noFaceDuration focusData <= 10000
      /\ multipleFaces focusData = false) ->
  focusEffect focusData cFocus cFace cMulti st = (inr tt, st, []).
Proof.
  intros [Hidle|(Hfocus & Hface & Hmulti)]; unfold focusEffect, bind, get.
  - rewrite Hidle. reflexivity.
  - destruct (isSessionActive st); [|reflexivity]. cbn [negb].
    rewrite (proj2 (Z.ltb_ge _ _) Hfocus), (proj2 (Z.ltb_ge _ _) Hface), Hmulti.
    reflexivity.
Qed.

Lemma objectEffect_idle detectedObjects clockAt st :
  isSessionActive st = false
  \/ Forall (fun obj => class obj = "person") detectedObjects ->
  objectEffect detectedObjects clockAt st = (inr tt, st, []).
Proof.
  intros [Hidle|Hpersons]; unfold objectEffect, bind, get.
  - rewrite Hidle. reflexivity.
  - destruct (isSessionActive st); [|reflexivity]. cbn [negb].
    assert (Hnone : suspiciousObjects detectedObjects = []).
    { unfold suspiciousObjects.
      induction Hpersons as [|obj l Hobj _ IH]; [reflexivity|].
      rewrite filter_cons_False by (intros Hne; apply Hne, Hobj). exact IH. }
    rewrite Hnone. reflexivity.
Qed.

(** X8.  The two effects do nothing without a cause.  Outside an active session
    neither changes the state or calls out; in a session the effect on the
    focus state does nothing while the focus was lost for no more than
    5000 ms, the face was missing for no more than 10000 ms and there is one
    face at most, and the effect on the objects does nothing while every
    detected object is a person. *)
Theorem effects_do_nothing_without_cause :
  (forall focusData cFocus cFace cMulti st,
      isSessionActive st = false
      \/ (focusLostDuration focusData <= 5000
          /\ noFaceDuration focusData <= 10000
          /\ multipleFaces focusData = false) ->
      focusEffect focusData cFocus cFace cMulti st = (inr tt, st, []))
  /\ (forall detectedObjects clockAt st,
        isSessionActive st = false
        \/ Forall (fun obj => class obj = "person") detectedObjects ->
        objectEffect detectedObjects clockAt st = (inr tt, st, [])).
Proof.
  split.
  - intros; now apply focusEffect_idle.
  - intros; now apply objectEffect_idle.
Qed.

Lemma effects_do_nothing_without_cause_witness :
  focusEffect
    {| faceDetected := true; lookingAtScreen := false; focusScore := 80;
       focusLostDuration := 5000; noFaceDuration := 0;
       multipleFaces := false; eyeClosure := false |}
    (tick t0) (tick t0) (tick t0) running
  = (inr tt, running, [])
  /\ objectEffect [person; person] (fun _ => tick t0) running
     = (inr tt, running, []).
Proof.
  destruct effects_do_nothing_without_cause as [Hfocus Hobjects].
  split.
  - apply Hfocus. right. cbn. repeat split; lia.
  - apply Hobjects. right. repeat constructor.
Defined.

Lemma api_calls_app sessionId new1 new2 :
  api_calls sessionId (new1 ++ new2)
  = api_calls sessionId new1 ++ api_calls sessionId new2.
Proof.
  unfold api_calls. destruct sessionId as [id|]; [|reflexivity].
  destruct (truthy id); [apply map_app | reflexivity].
Qed.

Lemma logs_and_reports_ret st : logs_and_reports (ret tt) st [].
Proof.
  unfold logs_and_reports, state_after, trace_of; cbn.
  rewrite app_nil_r. repeat split. unfold api_calls.
  destruct (sessionId st) as [id|]; [destruct (truthy id)|]; reflexivity.
Qed.

Lemma logs_and_reports_addEvent ev clock st :
  exists new,
    logs_and_reports (addEvent ev clock) st new
    /\ (new = [] \/ new = [stamped ev clock st]).
Proof.
  unfold logs_and_reports, state_after, trace_of. rewrite addEvent_unfold.
  destruct (_ <? _).
  - exists []. split; [apply (logs_and_reports_ret st) | now left].
  - exists [stamped ev clock st]. split; [|now right].
    cbn. repeat split.
Qed.

Lemma logs_and_reports_seq (m k : M unit) st new1 new2 :
  logs_and_reports m st new1 ->
  logs_and_reports k (state_after m st) new2 ->
  logs_and_reports (m ;;; k) st (new1 ++ new2).
Proof.
  unfold logs_and_reports, state_after, trace_of, bind.
  destruct (m st) as [[r1 st1] tr1]; cbn.
  intros (-> & Hlog1 & Htr1 & Hid1).
  destruct (k st1) as [[r2 st2] tr2]; cbn.
  intros (-> & Hlog2 & Htr2 & Hid2).
  split; [reflexivity|]. split; [now rewrite Hlog2, Hlog1, app_assoc|].
  split; [|congruence].
  rewrite api_calls_app, Htr1, Htr2, Hid1. reflexivity.
Qed.

Lemma logs_and_reports_guarded (b : bool) ev clock st :
  exists new,
    logs_and_reports (if b then addEvent ev clock else ret tt) st new
    /\ (length new <= 1)%nat.
Proof.
  destruct b.
  - destruct (logs_and_reports_addEvent ev clock st) as (new & Hlog & [->| ->]);
      eexists; (split; [exact Hlog | cbn; lia]).
  - exists []. split; [apply logs_and_reports_ret | cbn; lia].
Qed.

Lemma focusEffect_logs_and_reports focusData cFocus cFace cMulti st :
  exists new,
    logs_and_reports (focusEffect focusData cFocus cFace cMulti) st new
    /\ (length new <= 3)%nat.
Proof.
  unfold focusEffect.
  assert (Hget : forall (k : State -> M unit) new,
             logs_and_reports (k st) st new ->
             logs_and_reports (bind get k) st new).
  { intros k new. unfold logs_and_reports, state_after, trace_of, bind, get.
    destruct (k st st) as [[r st'] tr]; cbn. tauto. }
  destruct (negb (isSessionActive st)) eqn:Hidle.
  - exists []. split; [|cbn; lia]. apply Hget. rewrite Hidle.
    apply logs_and_reports_ret.
  - match goal with
    | |- context [bind ?m1 (fun _ => bind ?m2 (fun _ => ?m3))] =>
        destruct (logs_and_reports_guarded (5000 <? focusLostDuration focusData)
                    {| type := FOCUS_LOST; severity := "warning";
                       message := "Focus lost for "
                         +:+ show (round_seconds (focusLostDuration focusData))
                         +:+ "s";
                       data := FocusPayload focusData |} cFocus st)
          as (new1 & Hlog1 & Hlen1);
        destruct (logs_and_reports_guarded (10000 <? noFaceDuration focusData)
                    {| type := NO_FACE; severity := "danger";
                       message := "No face detected for "
                         +:+ show (round_seconds (noFaceDuration focusData))
                         +:+ "s";
                       data := FocusPayload focusData |} cFace
                    (state_after m1 st))
          as (new2 & Hlog2 & Hlen2);
        destruct (logs_and_reports_guarded (multipleFaces focusData)
                    {| type := MULTIPLE_FACES; severity := "danger";
                       message := "Multiple faces detected in frame";
                       data := FocusPayload focusData |} cMulti
                    (state_after m2 (state_after m1 st)))
          as (new3 & Hlog3 & Hlen3)
    end.
    exists (new1 ++ new2 ++ new3). split; [|rewrite !length_app; lia].
    apply Hget. rewrite Hidle.
    apply logs_and_reports_seq; [exact Hlog1|].
    apply logs_and_reports_seq; [exact Hlog2 | exact Hlog3].
Qed.

Lemma forEach_from_logs_and_reports (clockAt : nat -> Clock) :
  forall (l : list Detection) (i : nat) (st : State),
    exists new,
      logs_and_reports
        (forEach_from i l (fun j obj => addEvent (objectEventOf obj) (clockAt j)))
        st new
      /\ (length new <= length l)%nat.
Proof.
  induction l as [|obj l IH]; intros i st.
  - exists []. split; [apply logs_and_reports_ret | cbn; lia].
  - destruct (logs_and_reports_guarded true (objectEventOf obj) (clockAt i) st)
      as (new1 & Hlog1 & Hlen1).
    destruct (IH (S i) (state_after (addEvent (objectEventOf obj) (clockAt i)) st))
      as (new2 & Hlog2 & Hlen2).
    exists (new1 ++ new2). split; [|rewrite length_app; cbn; lia].
    cbn [forEach_from]. apply logs_and_reports_seq; assumption.
Qed.

Lemma objectEffect_logs_and_reports detectedObjects clockAt st :
  exists new,
    logs_and_reports (objectEffect detectedObjects clockAt) st new
    /\ (length new <= length (suspiciousObjects detectedObjects))%nat.
Proof.
  unfold objectEffect.
  assert (Hget : forall (k : State -> M unit) new,
             logs_and_reports (k st) st new ->
             logs_and_reports (bind get k) st new).
  { intros k new. unfold logs_and_reports, state_after, trace_of, bind, get.
    destruct (k st st) as [[r st'] tr]; cbn. tauto. }
  destruct (negb (isSessionActive st)) eqn:Hidle.
  - exists []. split; [|cbn; lia]. apply Hget. rewrite Hidle.
    apply logs_and_reports_ret.
  - destruct (0 <? length (suspiciousObjects detectedObjects))%nat eqn:Hany.
    + destruct (forEach_from_logs_and_reports clockAt
                  (suspiciousObjects detectedObjects) 0%nat st)
        as (new & Hlog & Hlen).
      exists new. split; [|exact Hlen]. apply Hget. cbv beta zeta.
      rewrite Hidle. exact Hlog.
    + exists []. split; [|cbn; lia]. apply Hget. cbv beta zeta.
      rewrite Hidle. apply logs_and_reports_ret.
Qed.

(** X9.  What an effect logs it reports.  A run of either effect returns, appends
    some events to the log (at most three for the focus state, at most one
    per suspicious object), leaves the session id alone, and calls
    [apiService.logEvent] once for each appended event, in the order of the
    log, when the session id is set and not empty, and not at all
    otherwise. *)
Theorem effects_report_what_they_log :
  (forall focusData cFocus cFace cMulti st,
      exists new,
        logs_and_reports (focusEffect focusData cFocus cFace cMulti) st new
        /\ (length new <= 3)%nat)
  /\ (forall detectedObjects clockAt st,
        exists new,
          logs_and_reports (objectEffect detectedObjects clockAt) st new
          /\ (length new <= length (suspiciousObjects detectedObjects))%nat).
Proof.
  split.
  - intros. apply focusEffect_logs_and_reports.
  - intros. apply objectEffect_logs_and_reports.
Qed.

End DebounceExtras.

(** ** More on the session life cycle *)

Module LifecycleExtras.

Import FocusDetection Dashboard Pipeline Runs Samples MoreSamples.
Import DebounceProps SessionProps PipelineProps DebounceExtras.

Lemma startSession_success env st session :
  trim (candidateName st) <> "" ->
  startCamera_outcome env = Resolved tt ->
  startRecording_outcome env = Resolved tt ->
  createSession_outcome env = Resolved session ->
  startSession env st
  = (inr tt,
     {| isSessionActive := true;
        candidateName := candidateName st;
        sessionId := Some (session_id session);
        sessionStartTime := Some (startDate env);
        events := [];
        sessionTimer := 0;
        intervalRef := Some (detectionHandle env);
        timerIntervalRef := Some (timerHandle env);
        lastEventTimeRef := lastEventTimeRef st |},
     [StartCamera; StartRecording;
      ApiCreateSession (trim (candidateName st)) (createDate env);
      SetInterval (detectionHandle env) DetectionLoop;
      SetInterval (timerHandle env) TimerLoop]).
Proof.
  intros Hname Hcam Hrec Hcreate. unfold startSession, bind, get.
  unfold truthy. rewrite bool_decide_eq_true_2 by exact Hname. cbn [negb].
  unfold try_catch, bind, call, modify, emit. rewrite Hcam, Hrec, Hcreate.
  reflexivity.
Qed.

Lemma start_failure_None env name :
  start_failure env name = None <->
  startCamera_outcome env = Resolved tt
  /\ startRecording_outcome env = Resolved tt
  /\ exists session, createSession_outcome env = Resolved session.
Proof.
  unfold start_failure.
  destruct (startCamera_outcome env) as [[]|e1];
    destruct (startRecording_outcome env) as [[]|e2];
    destruct (createSession_outcome env) as [session|e3];
    split; try discriminate; try (intros (? & ? & ? & ?); discriminate).
  - intros _. eauto.
  - reflexivity.
Qed.

(** X10.  A start request on an idle component marks the session active exactly
    when the name is not blank (it has a character that is neither white
    space nor a line terminator of ECMAScript) and the camera, the recorder
    and the creation of the session all succeed; then the session id and the
    start time are stored, the log and the timer are reset, both intervals
    are set up after the three calls, and the name and the debounce map are
    kept. *)
Theorem session_starts_iff_all_steps_succeed (env : StartEnv) (st : State) :
  isSessionActive st = false ->
  (isSessionActive (state_after (startSession env) st) = true
   <-> trim (candidateName st) <> ""
       /\ start_failure env (trim (candidateName st)) = None)
  /\ (trim (candidateName st) <> "" ->
      start_failure env (trim (candidateName st)) = None ->
      exists session,
        createSession_outcome env = Resolved session
        /\ startSession env st
           = (inr tt,
              {| isSessionActive := true;
                 candidateName := candidateName st;
                 sessionId := Some (session_id session);
                 sessionStartTime := Some (startDate env);
                 events := [];
                 sessionTimer := 0;
                 intervalRef := Some (detectionHandle env);
                 timerIntervalRef := Some (timerHandle env);
                 lastEventTimeRef := lastEventTimeRef st |},
              [StartCamera; StartRecording;
               ApiCreateSession (trim (candidateName st)) (createDate env);
               SetInterval (detectionHandle env) DetectionLoop;
               SetInterval (timerHandle env) TimerLoop])).
Proof.
  intros Hidle.
  assert (Hsuccess :
    trim (candidateName st) <> "" ->
    start_failure env (trim (candidateName st)) = None ->
    exists session,
      createSession_outcome env = Resolved session
      /\ startSession env st
         = (inr tt,
            {| isSessionActive := true;
               candidateName := candidateName st;
               sessionId := Some (session_id session);
               sessionStartTime := Some (startDate env);
               events := [];
               sessionTimer := 0;
               intervalRef := Some (detectionHandle env);
               timerIntervalRef := Some (timerHandle env);
               lastEventTimeRef := lastEventTimeRef st |},
            [StartCamera; StartRecording;
             ApiCreateSession (trim (candidateName st)) (createDate env);
             SetInterval (detectionHandle env) DetectionLoop;
             SetInterval (timerHandle env) TimerLoop])).
  { intros Hname Hnone. apply start_failure_None in Hnone.
    destruct Hnone as (Hcam & Hrec & session & Hcreate).
    exists session. split; [exact Hcreate|].
    now apply startSession_success. }
  split; [|exact Hsuccess]. split.
  - intros Hactive.
    destruct (decide (trim (candidateName st) = "")) as [Hblank|Hname].
    + exfalso. revert Hactive. unfold state_after, startSession, bind, get.
      rewrite Hblank. change (negb (truthy "")) with true. cbn.
      rewrite Hidle. discriminate.
    + split; [exact Hname|].
      destruct (start_failure env (trim (candidateName st)))
        as [[calls error]|] eqn:Hfail; [|reflexivity].
      exfalso. revert Hactive. unfold state_after.
      rewrite (startSession_failure env st calls error Hname Hfail). cbn.
      congruence.
  - intros [Hname Hnone].
    destruct (Hsuccess Hname Hnone) as (session & _ & Hrun).
    unfold state_after. rewrite Hrun. reflexivity.
Qed.

Lemma session_starts_iff_all_steps_succeed_witness :
  isSessionActive
    (state_after (startSession allGood) (setCandidateName " Ada " initialState))
  = true
  /\ isSessionActive
       (state_after (startSession noCamera) (setCandidateName "Ada" initialState))
     <> true
  /\ isSessionActive (state_after (startSession allGood) wideBlankName)
     <> true.
Proof.
  split; [|split].
  - apply (session_starts_iff_all_steps_succeed allGood
             (setCandidateName " Ada " initialState) eq_refl).
    split; [vm_compute; discriminate | reflexivity].
  - intros Hactive.
    apply (session_starts_iff_all_steps_succeed noCamera
             (setCandidateName "Ada" initialState) eq_refl) in Hactive.
    destruct Hactive as [_ Hnone]. discriminate Hnone.
  - intros Hactive.
    apply (session_starts_iff_all_steps_succeed allGood wideBlankName eq_refl)
      in Hactive.
    destruct Hactive as [Hname _]. apply Hname. reflexivity.
Defined.

Lemma endSession_failure env st calls error :
  end_failure env st = Some (calls, error) ->
  endSession env st
  = (inr tt, st,
     [ClearInterval (intervalRef st); ClearInterval (timerIntervalRef st)]
     ++ calls ++ [ConsoleError "Error ending session:" error]).
Proof.
  unfold end_failure, endSession, bind, get, try_catch, bind, call, invoke,
    emit, modify, ret, throw.
  destruct (stopRecording_outcome env) as [[]|e1];
    [|intros [= <- <-]; reflexivity].
  destruct (stopCamera_outcome env) as [[]|e2];
    [|intros [= <- <-]; reflexivity].
  destruct (sessionStartTime st) as [start|];
    [|intros [= <- <-]; reflexivity].
  destruct (endSession_outcome env) as [[]|e3];
    [|intros [= <- <-]; reflexivity].
  destruct (onSessionComplete_outcome env) as [[]|e4];
    [discriminate | intros [= <- <-]; reflexivity].
Qed.

Lemma end_failure_None env st :
  end_failure env st = None <->
  is_Some (sessionStartTime st)
  /\ stopRecording_outcome env = Resolved tt
  /\ stopCamera_outcome env = Resolved tt
  /\ endSession_outcome env = Resolved tt
  /\ onSessionComplete_outcome env = Resolved tt.
Proof.
  unfold end_failure.
  destruct (stopRecording_outcome env) as [[]|e1];
    destruct (stopCamera_outcome env) as [[]|e2];
    destruct (sessionStartTime st) as [start|];
    destruct (endSession_outcome env) as [[]|e3];
    destruct (onSessionComplete_outcome env) as [[]|e4];
    split; try discriminate;
    try (intros ([x Hx] & ? & ? & ? & ?); discriminate).
  - intros _. repeat split. eauto.
  - reflexivity.
Qed.

(** X11.  An active session is ended exactly when it has a start time, the
    two awaited calls (stopping the recorder, sending the report) succeed and
    the two calls that are not awaited ([stopCamera], [onSessionComplete])
    return without throwing.  When one of these steps fails, the state of the
    component is the one before the request, so the session stays active,
    although both intervals were cleared first; nothing after the failing
    step is called, and the error only goes to [console.error].  Promises
    returned by the two calls that are not awaited change nothing, however
    they settle. *)
Theorem session_ends_iff_all_steps_succeed (env : EndEnv) (st : State) :
  isSessionActive st = true ->
  (isSessionActive (state_after (endSession env) st) = false
   <-> end_failure env st = None)
  /\ (forall calls error,
        end_failure env st = Some (calls, error) ->
        state_after (endSession env) st = st
        /\ trace_of (endSession env) st
           = [ClearInterval (intervalRef st);
              ClearInterval (timerIntervalRef st)]
             ++ calls ++ [ConsoleError "Error ending session:" error])
  /\ (forall p q, endSession (with_promises p q env) st = endSession env st).
Proof.
  intros Hactive.
  apply and_assoc. split; [|intros p q; reflexivity].
  assert (Hfailed : forall calls error,
    end_failure env st = Some (calls, error) ->
    state_after (endSession env) st = st
    /\ trace_of (endSession env) st
       = [ClearInterval (intervalRef st); ClearInterval (timerIntervalRef st)]
         ++ calls ++ [ConsoleError "Error ending session:" error]).
  { intros calls error Hfail. unfold state_after, trace_of.
    rewrite (endSession_failure env st calls error Hfail). split; reflexivity. }
  split; [|exact Hfailed].
  destruct (end_failure env st) as [[calls error]|] eqn:Hfail.
  - destruct (Hfailed calls error eq_refl) as [Hstate _]. rewrite Hstate.
    split; [intros Hoff; rewrite Hactive in Hoff; discriminate Hoff
           | discriminate].
  - split; [reflexivity|]. intros _.
    apply end_failure_None in Hfail.
    destruct Hfail as ([start Hstart] & Hrec & Hcam & Hend & Hdone).
    unfold state_after.
    rewrite (endSession_success env st start Hstart Hrec Hcam Hend Hdone).
    reflexivity.
Qed.

Lemma session_ends_iff_all_steps_succeed_witness :
  (state_after (endSession noRecorder) running = running
   /\ trace_of (endSession noRecorder) running
      = [ClearInterval (Some 1); ClearInterval (Some 2); StopRecording;
         ConsoleError "Error ending session:" "InvalidStateError"])
  /\ isSessionActive (state_after (endSession lateRejections) running) = false.
Proof.
  split.
  - destruct (session_ends_iff_all_steps_succeed noRecorder running eq_refl)
      as (_ & Hfailed & _).
    apply (Hfailed [StopRecording] "InvalidStateError"). reflexivity.
  - apply (session_ends_iff_all_steps_succeed lateRejections running eq_refl).
    reflexivity.
Defined.

(** X12.  Ending a session clears the name field: a start request that follows a
    successful end without a new name is turned down with the alert for a
    missing name, and starts nothing. *)
Theorem restart_needs_a_new_name (env : EndEnv) (env' : StartEnv) (st : State) :
  end_failure env st = None ->
  candidateName (state_after (endSession env) st) = ""
  /\ startSession env' (state_after (endSession env) st)
     = (inr tt, state_after (endSession env) st,
        [Alert "Please enter candidate name"]).
Proof.
  intros Hnone. apply end_failure_None in Hnone.
  destruct Hnone as ([start Hstart] & Hrec & Hcam & Hend & Hdone).
  unfold state_after at 1 2 3.
  rewrite (endSession_success env st start Hstart Hrec Hcam Hend Hdone).
  cbn [fst snd]. split; [reflexivity|].
  unfold startSession, bind, get. reflexivity.
Qed.

Lemma restart_needs_a_new_name_witness :
  startSession allGood (state_after (endSession (endsWell (t0 + 60000))) running)
  = (inr tt, state_after (endSession (endsWell (t0 + 60000))) running,
     [Alert "Please enter candidate name"]).
Proof.
  apply (restart_needs_a_new_name (endsWell (t0 + 60000)) allGood running).
  reflexivity.
Defined.

(** *** What every reachable state satisfies *)

Lemma addEvent_session_fields ev clock st :
  session_fields (state_after (addEvent ev clock) st) = session_fields st.
Proof.
  unfold state_after. rewrite addEvent_unfold. destruct (_ <? _); reflexivity.
Qed.

Lemma addEvent_logging fields (b : bool) ev clock :
  (b = true -> justified_event ev) ->
  hoare (logging fields) (if b then addEvent ev clock else ret tt)
        (logging fields).
Proof.
  intros Hev st (Hfields & Hstart & Htimed & Hjust).
  destruct b; [|repeat split; assumption].
  specialize (Hev eq_refl).
  pose proof (addEvent_session_fields ev clock st) as Hsame.
  unfold logging. rewrite Hsame.
  assert (Hstart' : sessionStartTime (state_after (addEvent ev clock) st)
                    = sessionStartTime st) by (injection Hsame; auto).
  rewrite Hstart'. split; [exact Hfields|]. split; [exact Hstart|].
  unfold state_after. rewrite addEvent_unfold.
  destruct (_ <? _); cbn; [split; assumption|].
  split; apply Forall_app; (split; [assumption|]);
    (constructor; [|constructor]); cbn; [|exact Hev].
  destruct Hstart as [start ->]. cbn. eauto.
Qed.

Lemma well_formed_of_logging st st' :
  well_formed st -> logging (session_fields st) st' -> well_formed st'.
Proof.
  intros [Hset Htimer _ _] (Hfields & _ & Htimed & Hjust).
  unfold session_fields in Hfields. injection Hfields as Ha Hid Hs Hi Ht Hn.
  constructor; [|lia|exact Htimed|exact Hjust].
  unfold active_session_is_set_up. rewrite Ha, Hid, Hs, Hi, Ht. exact Hset.
Qed.

Lemma forEach_from_invariant_on {A} (I : State -> Prop) (P : A -> Prop)
    (f : nat -> A -> M unit) :
  (forall i x, P x -> hoare I (f i x) I) ->
  forall l i, Forall P l -> hoare I (forEach_from i l f) I.
Proof.
  intros Hf l. induction l as [|x l IH]; intros i Hl; cbn.
  - apply hoare_ret.
  - inversion Hl as [|? ? Hx Hrest]; subst.
    apply invariant_bind; [now apply Hf | intros _; now apply IH].
Qed.

Lemma focusEffect_well_formed focusData cFocus cFace cMulti :
  hoare well_formed (focusEffect focusData cFocus cFace cMulti) well_formed.
Proof.
  unfold focusEffect. apply hoare_get. intros st0.
  destruct (negb (isSessionActive st0)) eqn:Hidle;
    [intros st [Hwf _]; exact Hwf|].
  intros st [Hwf ->].
  apply (well_formed_of_logging st0); [exact Hwf|].
  assert (Hnow : logging (session_fields st0) st0).
  { destruct Hwf as [Hset _ Htimed Hjust].
    repeat split; try assumption.
    apply Hset. now destruct (isSessionActive st0). }
  match goal with
  | |- logging _ (state_after ?body _) =>
      assert (Hbody : hoare (logging (session_fields st0)) body
                            (logging (session_fields st0)))
  end.
  { repeat (apply invariant_bind; [|intros _]); apply addEvent_logging;
      intros Hcond; cbn; (split; [|reflexivity]).
    - now apply Z.ltb_lt.
    - now apply Z.ltb_lt.
    - exact Hcond. }
  apply Hbody, Hnow.
Qed.

Lemma objectEffect_well_formed detectedObjects clockAt :
  hoare well_formed (objectEffect detectedObjects clockAt) well_formed.
Proof.
  unfold objectEffect. apply hoare_get. intros st0.
  destruct (negb (isSessionActive st0)) eqn:Hidle;
    [intros st [Hwf _]; exact Hwf|].
  cbv zeta. destruct (0 <? length _)%nat; [|intros st [Hwf _]; exact Hwf].
  intros st [Hwf ->].
  apply (well_formed_of_logging st0); [exact Hwf|].
  assert (Hnow : logging (session_fields st0) st0).
  { destruct Hwf as [Hset _ Htimed Hjust].
    repeat split; try assumption.
    apply Hset. now destruct (isSessionActive st0). }
  assert (Hbody :
    hoare (logging (session_fields st0))
      (forEach_from 0 (suspiciousObjects detectedObjects)
         (fun i obj => addEvent (objectEventOf obj) (clockAt i)))
      (logging (session_fields st0))).
  { apply (forEach_from_invariant_on _ (fun obj => class obj <> "person")).
    - intros i obj Hobj. apply (addEvent_logging _ true).
      intros _. cbn. split; [exact Hobj | reflexivity].
    - apply Forall_forall. intros obj Hin.
      apply list_elem_of_filter in Hin. tauto. }
  apply Hbody, Hnow.
Qed.

Lemma startSession_well_formed env :
  hoare well_formed (startSession env) well_formed.
Proof.
  intros st Hwf. unfold state_after, startSession, bind, get.
  destruct (negb (truthy (trim (candidateName st)))); [exact Hwf|].
  unfold try_catch, bind, call, modify, emit.
  destruct (startCamera_outcome env); [|exact Hwf].
  destruct (startRecording_outcome env); [|exact Hwf].
  destruct (createSession_outcome env); [|exact Hwf].
  cbn. constructor; cbn; [|lia|constructor|constructor].
  intros _. cbn. eauto.
Qed.

Lemma endSession_well_formed env :
  hoare well_formed (endSession env) well_formed.
Proof.
  intros st Hwf.
  destruct (end_failure env st) as [[calls error]|] eqn:Hfail.
  - unfold state_after. rewrite (endSession_failure env st calls error Hfail).
    exact Hwf.
  - apply end_failure_None in Hfail.
    destruct Hfail as ([start Hstart] & Hrec & Hcam & Hend & Hdone).
    unfold state_after.
    rewrite (endSession_success env st start Hstart Hrec Hcam Hend Hdone).
    destruct Hwf as [_ _ Htimed Hjust].
    constructor; cbn; [|lia|exact Htimed|exact Hjust].
    intros Hoff. discriminate Hoff.
Qed.

Lemma perform_well_formed a : hoare well_formed (perform a) well_formed.
Proof.
  destruct a; cbn [perform].
  - intros st [Hset Htimer Htimed Hjust]. constructor; assumption.
  - apply startSession_well_formed.
  - apply endSession_well_formed.
  - apply focusEffect_well_formed.
  - apply objectEffect_well_formed.
  - intros st [Hset Htimer Htimed Hjust].
    constructor; cbn; [exact Hset | lia | exact Htimed | exact Hjust].
Qed.

Lemma reachable_well_formed st : reachable st -> well_formed st.
Proof.
  induction 1 as [|a st Hreach IH Henabled].
  - constructor; cbn; [intros Hon; discriminate Hon | lia
                       | constructor | constructor].
  - apply perform_well_formed, IH.
Qed.

(** X13.  In every state that the component reaches, a session that is marked
    active has a session id, a start time and the handles of both intervals,
    and every event of the log carries a session-relative time (never the
    [NaN] that a missing start time would give). *)
Theorem active_sessions_are_set_up (st : State) :
  reachable st ->
  (isSessionActive st = true ->
   is_Some (sessionId st) /\ is_Some (sessionStartTime st)
   /\ is_Some (intervalRef st) /\ is_Some (timerIntervalRef st))
  /\ Forall (fun e => is_Some (sessionTime e)) (events st).
Proof.
  intros Hreach. destruct (reachable_well_formed st Hreach) as [Hset _ Htimed _].
  split; [exact Hset | exact Htimed].
Qed.

Lemma active_sessions_are_set_up_witness :
  is_Some (sessionStartTime (run twoSessions initialState))
  /\ Forall (fun e => is_Some (sessionTime e))
       (events (run unnamedObject initialState)).
Proof.
  split.
  - apply (active_sessions_are_set_up (run twoSessions initialState)).
    + apply run_reachable, reachable_initial.
    + reflexivity.
  - apply (active_sessions_are_set_up (run unnamedObject initialState)).
    apply run_reachable, reachable_initial.
Defined.

(** X14.  Every event of the log of a reachable state is justified by its own
    payload: a FOCUS_LOST event (a warning) carries a focus state whose focus
    was lost for more than 5000 ms, a NO_FACE event one without a face for
    more than 10000 ms, a MULTIPLE_FACES event one with several faces, and a
    SUSPICIOUS_OBJECT event a detection whose class is not "person" (all
    three of severity danger). *)
Theorem logged_events_are_justified (st : State) :
  reachable st ->
  Forall (fun e => justified_event (event e)) (events st).
Proof.
  intros Hreach. now destruct (reachable_well_formed st Hreach).
Qed.

Lemma logged_events_are_justified_witness :
  Forall (fun e => justified_event (event e))
    (events (run unnamedObject initialState)).
Proof.
  apply (logged_events_are_justified (run unnamedObject initialState)).
  apply run_reachable, reachable_initial.
Defined.

End LifecycleExtras.

(** ** The timer display *)

Module DisplayExtras.

Import Stdlib.Strings.Ascii.
Import FocusDetection Dashboard Display Runs Samples MoreSamples.
Import SessionProps LifecycleExtras.

Lemma string_of_uint_digits d : all_digits (NilEmpty.string_of_uint d).
Proof.
  induction d; cbn; try exact I; (split; [|exact IHd]);
    unfold is_digit; cbn; tauto.
Qed.

Lemma repeat_zero_uint k d :
  repeat_char "0" k +:+ NilEmpty.string_of_uint d
  = NilEmpty.string_of_uint (Nat.iter k Decimal.D0 d).
Proof.
  induction k as [|k IH]; [reflexivity|].
  change (String "0" (repeat_char "0" k +:+ NilEmpty.string_of_uint d)
          = String "0" (NilEmpty.string_of_uint (Nat.iter k Decimal.D0 d))).
  now rewrite IH.
Qed.

Lemma of_uint_leading_zeros k d :
  Z.of_uint (Nat.iter k Decimal.D0 d) = Z.of_uint d.
Proof. induction k as [|k IH]; [reflexivity | exact IH]. Qed.

Lemma iter_D0_nonnil k d : d <> Decimal.Nil -> Nat.iter k Decimal.D0 d <> Decimal.Nil.
Proof. destruct k; cbn; [auto | discriminate]. Qed.

(** A string of digits that prints a number reads back as that number. *)
Lemma parseNumber_uint d :
  d <> Decimal.Nil ->
  parseNumber (NilEmpty.string_of_uint d) = Some (Z.of_uint d).
Proof.
  intros Hd. unfold parseNumber, NilZero.int_of_string.
  pose proof (string_of_uint_digits d) as Hdigits.
  pose proof (NilEmpty.usu d) as Husu.
  destruct (NilEmpty.string_of_uint d) as [|c s] eqn:Hs.
  - destruct d; cbn in Hs; congruence.
  - destruct Hdigits as [Hc _].
    assert (Hminus : Ascii.eqb c "-" = false).
    { unfold is_digit in Hc. cbn in Hc.
      repeat (destruct Hc as [<-|Hc]; [reflexivity|]). contradiction. }
    rewrite Hminus. unfold NilZero.uint_of_string. rewrite Husu. reflexivity.
Qed.

(** What [show] prints for a number that is not negative. *)
Lemma show_nonneg n :
  0 <= n ->
  exists d, d <> Decimal.Nil /\ show n = NilEmpty.string_of_uint d
            /\ Z.of_uint d = n.
Proof.
  intros Hn. unfold show. destruct n as [|p|p]; [| |lia].
  - exists (Decimal.D0 Decimal.Nil). repeat split. discriminate.
  - exists (Pos.to_uint p).
    pose proof (DecimalPos.Unsigned.to_uint_nonnil p) as Hnil.
    split; [exact Hnil|]. split.
    + cbn. destruct (Pos.to_uint p); [contradiction|..]; reflexivity.
    + exact (DecimalZ.of_to (Z.pos p)).
Qed.

Lemma padded_number n :
  0 <= n ->
  exists d, d <> Decimal.Nil
            /\ padStart 2 "0" (show n) = NilEmpty.string_of_uint d
            /\ Z.of_uint d = n.
Proof.
  intros Hn. destruct (show_nonneg n Hn) as (d & Hd & Hshow & Hval).
  exists (Nat.iter (2 - String.length (show n)) Decimal.D0 d).
  split; [now apply iter_D0_nonnil|]. split.
  - unfold padStart. rewrite Hshow at 2. apply repeat_zero_uint.
  - now rewrite of_uint_leading_zeros.
Qed.

Lemma split_at_colon_digits s rest :
  all_digits s -> split_at_colon (s +:+ ":" +:+ rest) = Some (s, rest).
Proof.
  induction s as [|c s IH]; [reflexivity|].
  intros [Hc Hs].
  assert (Hcolon : Ascii.eqb c ":" = false).
  { unfold is_digit in Hc. cbn in Hc.
    repeat (destruct Hc as [<-|Hc]; [reflexivity|]). contradiction. }
  simpl. rewrite Hcolon. now rewrite IH.
Qed.

Lemma parseTimer_formatTimer seconds :
  0 <= seconds ->
  parseTimer (formatTimer seconds) = Some (seconds / 60, seconds mod 60).
Proof.
  intros Hs. unfold formatTimer, parseTimer.
  rewrite Z.rem_mod_nonneg by lia.
  destruct (padded_number (seconds / 60)) as (dm & Hdm & Hm & Hvm);
    [apply Z.div_pos; lia|].
  destruct (padded_number (seconds mod 60)) as (ds & Hds & Hsec & Hvs);
    [apply Z.mod_pos_bound; lia|].
  rewrite Hm, Hsec.
  rewrite split_at_colon_digits by apply string_of_uint_digits.
  rewrite !parseNumber_uint by assumption. now rewrite Hvm, Hvs.
Qed.

Lemma padded_length n :
  0 <= n < 100 -> String.length (padStart 2 "0" (show n)) = 2%nat.
Proof.
  intros Hn.
  assert (Hall :
    forallb (fun k => Nat.eqb (String.length
                                 (padStart 2 "0" (show (Z.of_nat k)))) 2)
            (seq 0 100) = true) by (vm_compute; reflexivity).
  rewrite forallb_forall in Hall.
  specialize (Hall (Z.to_nat n)).
  rewrite Z2Nat.id in Hall by lia.
  apply Nat.eqb_eq, Hall, in_seq. lia.
Qed.

Lemma length_append (s1 s2 : string) :
  String.length (s1 +:+ s2) = (String.length s1 + String.length s2)%nat.
Proof. induction s1 as [|c s1 IH]; simpl; [reflexivity | now rewrite IH]. Qed.

(** X15.  The display can be read back: for a number of seconds that is not
    negative, the text before the colon prints the whole minutes and the
    text after it the remaining seconds, so that [60 * minutes + seconds] is
    the number displayed; below 100 minutes the display has the five
    characters of MM:SS. *)
Theorem timer_display_reads_back (seconds : Z) :
  0 <= seconds ->
  exists mins secs,
    parseTimer (formatTimer seconds) = Some (mins, secs)
    /\ 60 * mins + secs = seconds
    /\ 0 <= secs < 60
    /\ (seconds < 6000 -> String.length (formatTimer seconds) = 5%nat).
Proof.
  intros Hs. exists (seconds / 60), (seconds mod 60).
  split; [now apply parseTimer_formatTimer|].
  split; [pose proof (Z.div_mod seconds 60); lia|].
  split; [apply Z.mod_pos_bound; lia|].
  intros Hshort. unfold formatTimer. rewrite Z.rem_mod_nonneg by lia.
  rewrite !length_append, !padded_length.
  - reflexivity.
  - pose proof (Z.mod_pos_bound seconds 60). lia.
  - split; [apply Z.div_pos; lia | apply Z.div_lt_upper_bound; lia].
Qed.

Lemma timer_display_reads_back_witness :
  formatTimer 754 = "12:34"
  /\ exists mins secs,
       parseTimer (formatTimer 754) = Some (mins, secs)
       /\ 60 * mins + secs = 754.
Proof.
  split; [reflexivity|].
  destruct (timer_display_reads_back 754) as (mins & secs & Hparse & Hsum & _);
    [lia|].
  exists mins, secs. split; assumption.
Defined.

(** X16.  The session timer of a reachable state is never negative, and what the
    header shows for it reads back as its minutes and seconds. *)
Theorem session_timer_is_displayable (st : State) :
  reachable st ->
  0 <= sessionTimer st
  /\ parseTimer (formatTimer (sessionTimer st))
     = Some (sessionTimer st / 60, sessionTimer st mod 60).
Proof.
  intros Hreach. destruct (reachable_well_formed st Hreach) as [_ Htimer _ _].
  split; [exact Htimer | now apply parseTimer_formatTimer].
Qed.

Lemma session_timer_is_displayable_witness :
  let st := run [EditName "Ada"; PressStart allGood; TimerFired; TimerFired]
                initialState in
  sessionTimer st = 2 /\ formatTimer (sessionTimer st) = "00:02"
  /\ parseTimer (formatTimer (sessionTimer st)) = Some (0, 2).
Proof.
  cbv zeta. split; [reflexivity|]. split; [reflexivity|].
  destruct (session_timer_is_displayable
              (run [EditName "Ada"; PressStart allGood; TimerFired; TimerFired]
                   initialState)) as [_ Hparse].
  - apply run_reachable, reachable_initial.
  - exact Hparse.
Defined.

End DisplayExtras.

(** ** The log as a whole *)

Module LogExtras.

Import FocusDetection Dashboard Pipeline Runs Samples MoreSamples.
Import DebounceProps SessionProps PipelineProps DebounceExtras LifecycleExtras.

(** X17.  The log only grows: editing the name, the timer, either effect and an
    end request, successful or not, leave the log of before as a prefix of
    the log of after; a start request either leaves the log as it is (when it
    is turned down or fails) or empties it. *)
Theorem log_is_append_only (a : Action) (st : State) :
  match a with
  | PressStart _ =>
      events (state_after (perform a) st) = events st
      \/ events (state_after (perform a) st) = []
  | _ => events st `prefix_of` events (state_after (perform a) st)
  end.
Proof.
  destruct a as [name|env|env|focusData cFocus cFace cMulti
                 |detectedObjects clockAt|]; cbn [perform].
  - reflexivity.
  - unfold state_after, startSession, bind, get.
    destruct (negb (truthy (trim (candidateName st)))); [now left|].
    unfold try_catch, bind, call, modify, emit.
    destruct (startCamera_outcome env); [|now left].
    destruct (startRecording_outcome env); [|now left].
    destruct (createSession_outcome env); [now right | now left].
  - destruct (end_failure env st) as [[calls error]|] eqn:Hfail.
    + unfold state_after. now rewrite (endSession_failure env st calls error Hfail).
    + apply end_failure_None in Hfail.
      destruct Hfail as ([start Hstart] & Hrec & Hcam & Hend & Hdone).
      unfold state_after.
      now rewrite (endSession_success env st start Hstart Hrec Hcam Hend Hdone).
  - destruct (focusEffect_logs_and_reports focusData cFocus cFace cMulti st)
      as (new & (_ & Hlog & _) & _).
    rewrite Hlog. now exists new.
  - destruct (objectEffect_logs_and_reports detectedObjects clockAt st)
      as (new & (_ & Hlog & _) & _).
    rewrite Hlog. now exists new.
  - reflexivity.
Qed.

Lemma length_set_spread_from seen l :
  (length (set_spread_from seen l) <= length l)%nat.
Proof.
  revert seen. induction l as [|x l IH]; intros seen; cbn; [lia|].
  case_bool_decide; cbn; [specialize (IH seen) | specialize (IH (x :: seen))];
    lia.
Qed.

Lemma length_filter_Boolean l : (length (filter_Boolean l) <= length l)%nat.
Proof.
  unfold filter_Boolean. induction l as [|o l IH]; cbn; [lia|].
  destruct o as [c|]; [destruct (truthy c)|]; cbn; lia.
Qed.

Lemma counts_cover_engine_types log :
  Forall (fun e => engine_type (type (event e))) log ->
  (count_type FOCUS_LOST log + count_type NO_FACE log
   + count_type MULTIPLE_FACES log + count_type SUSPICIOUS_OBJECT log
   = length log)%nat.
Proof.
  unfold count_type. induction 1 as [|e log He _ IH]; [reflexivity|].
  rewrite !filter_cons. unfold engine_type in He.
  repeat case_decide;
    repeat match goal with
           | H : has_type _ _ |- _ => unfold has_type in H
           | H : ~ has_type _ _ |- _ => unfold has_type in H
           end;
    try congruence; cbn [length]; try lia.
  exfalso.
  repeat (apply elem_of_cons in He as [He|He]; [congruence|]).
  now apply elem_of_nil in He.
Qed.

(** X18.  The report accounts for every logged event: in a reachable state the
    counts of FOCUS_LOST, NO_FACE and MULTIPLE_FACES events and the total of
    the object summary add up to the length of the log, and the object
    summary never lists more items than it counts detections. *)
Theorem report_accounts_for_every_event (st : State) (start sessionEndTime : Z) :
  reachable st ->
  let sessionData := mkSessionData st start sessionEndTime in
  (focusLostCount (focusSummary sessionData)
   + noFaceCount (focusSummary sessionData)
   + multipleFacesCount (focusSummary sessionData)
   + totalDetections (objectSummary sessionData)
   = length (sd_events sessionData))%nat
  /\ (length (items (objectSummary sessionData))
      <= totalDetections (objectSummary sessionData))%nat.
Proof.
  intros Hreach. cbn. split.
  - apply (counts_cover_engine_types (events st)).
    now apply reachable_engine_types.
  - unfold set_spread.
    etransitivity; [apply length_set_spread_from|].
    etransitivity; [apply length_filter_Boolean|].
    now rewrite length_map.
Qed.

Lemma report_accounts_for_every_event_witness :
  let sessionData :=
    mkSessionData (run unnamedObject initialState) t0 (t0 + 60000) in
  (focusLostCount (focusSummary sessionData)
   + noFaceCount (focusSummary sessionData)
   + multipleFacesCount (focusSummary sessionData)
   + totalDetections (objectSummary sessionData) = 1)%nat.
Proof.
  cbv zeta.
  destruct (report_accounts_for_every_event (run unnamedObject initialState)
              t0 (t0 + 60000)) as [Hsum _].
  - apply run_reachable, reachable_initial.
  - rewrite Hsum. reflexivity.
Defined.

Section AttentiveFrames.

Variable Landmarks : Type.
Variable calculateGaze : Landmarks -> GazeData.

Lemma frame_step_attentive (f : Frame Landmarks) (m : Monitor) :
  attentive_frame calculateGaze f ->
  frame_step calculateGaze f m
  = {| focus := {| faceDetected := true; lookingAtScreen := true;
                   focusScore := 100; focusLostDuration := 0;
                   noFaceDuration := 0; multipleFaces := false;
                   eyeClosure := false |};
       refs := {| lastFocusTime := at_time f; lastFaceTime := at_time f |};
       dash := dash m |}.
Proof.
  intros (Hready & landmarks & Hresults & Hlook & Heyes).
  unfold frame_step, onFaceResults.
  rewrite Hready, Hresults. cbn [negb]. rewrite Hlook, Heyes. cbn.
  unfold state_after. rewrite focusEffect_idle; [reflexivity|].
  right. cbn. repeat split; lia.
Qed.

End AttentiveFrames.

(** X19.  While one face looks at the screen with open eyes nothing is logged:
    a run of such frames leaves the component as it is, log and debounce map
    included, whatever state the handler copied and whether or not a session
    is active, and after the last of them the focus state is the nominal one
    with score 100 and both durations 0. *)
Theorem attentive_frames_log_nothing
    (Landmarks : Type) (calculateGaze : Landmarks -> GazeData)
    (frames : list (Frame Landmarks)) (m : Monitor) :
  Forall (attentive_frame calculateGaze) frames ->
  dash (run_frames calculateGaze frames m) = dash m
  /\ (frames <> [] ->
      focus (run_frames calculateGaze frames m)
      = {| faceDetected := true; lookingAtScreen := true; focusScore := 100;
           focusLostDuration := 0; noFaceDuration := 0;
           multipleFaces := false; eyeClosure := false |}).
Proof.
  intros Hframes. revert m.
  induction Hframes as [|f rest Hf Hrest IH]; intros m.
  - split; [reflexivity | congruence].
  - cbn [run_frames]. rewrite (frame_step_attentive _ _ f m Hf).
    destruct (IH {| focus := {| faceDetected := true; lookingAtScreen := true;
                                focusScore := 100; focusLostDuration := 0;
                                noFaceDuration := 0; multipleFaces := false;
                                eyeClosure := false |};
                    refs := {| lastFocusTime := at_time f;
                               lastFaceTime := at_time f |};
                    dash := dash m |}) as [Hdash Hfocus].
    split; [exact Hdash|]. intros _.
    destruct rest as [|f' rest']; [reflexivity|].
    apply Hfocus. discriminate.
Qed.

Lemma attentive_frames_log_nothing_witness :
  let m := run_frames sampleGaze
             [attentiveFrame (t0 + 1000); attentiveFrame (t0 + 2000)]
             (watching t0) in
  dash m = running /\ focusScore (focus m) = 100.
Proof.
  cbv zeta.
  destruct (attentive_frames_log_nothing GazeData sampleGaze
              [attentiveFrame (t0 + 1000); attentiveFrame (t0 + 2000)]
              (watching t0)) as [Hdash Hfocus].
  - repeat constructor; exists attentive; repeat split.
  - split; [exact Hdash|]. rewrite Hfocus by discriminate. reflexivity.
Defined.

(** X20.  While no face is seen the refs stay where they are and the stored
    [noFaceDuration] is the time since the face was last seen, at every frame
    of the run; the first frame with a face sets it back to 0 and moves
    [lastFaceTime] to its own time. *)
Theorem no_face_duration_measures_absence
    (Landmarks : Type) (calculateGaze : Landmarks -> GazeData)
    (frames : list (Frame Landmarks)) (last : Frame Landmarks) (m : Monitor)
    (back : Frame Landmarks) (landmarks : Landmarks) (others : list Landmarks) :
  Forall (fun f => empty_frame_at (at_time f) f) (frames ++ [last]) ->
  ready back = true ->
  multiFaceLandmarks (results back) = Some (landmarks :: others) ->
  let gone := run_frames calculateGaze (frames ++ [last]) m in
  let returned := frame_step calculateGaze back gone in
  refs gone = refs m
  /\ noFaceDuration (focus gone) = at_time last - lastFaceTime (refs m)
  /\ faceDetected (focus gone) = false
  /\ noFaceDuration (focus returned) = 0
  /\ faceDetected (focus returned) = true
  /\ lastFaceTime (refs returned) = at_time back.
Proof.
  intros Hframes Hready Hfaces gone returned.
  assert (Hgone : refs gone = refs m
                  /\ noFaceDuration (focus gone)
                     = at_time last - lastFaceTime (refs m)
                  /\ faceDetected (focus gone) = false).
  { subst gone. clear returned. revert m.
    induction frames as [|f rest IH]; intros m.
    - cbn [app run_frames].
      apply Forall_cons_1 in Hframes as [Hlast _].
      destruct (frame_step_no_face Landmarks calculateGaze last m _ Hlast)
        as (newFocusData & Hstep & Hface & _ & Hnoface & _).
      rewrite Hstep. cbn. auto.
    - cbn [app run_frames] in *.
      apply Forall_cons_1 in Hframes as [Hf Hrest].
      destruct (frame_step_no_face Landmarks calculateGaze f m _ Hf)
        as (newFocusData & Hstep & _).
      destruct (IH Hrest (frame_step calculateGaze f m)) as (H1 & H2 & H3).
      rewrite Hstep in H1, H2, H3 |- *. cbn in H1, H2. auto. }
  destruct Hgone as (Hrefs & Hnoface & Hface).
  split; [exact Hrefs|]. split; [exact Hnoface|]. split; [exact Hface|].
  subst returned. unfold frame_step, onFaceResults.
  rewrite Hready, Hfaces. cbn [negb].
  destruct (gaze_lookingAtScreen (calculateGaze landmarks)); cbn; auto.
Qed.

Lemma no_face_duration_measures_absence_witness :
  let gone := run_frames sampleGaze
                [emptyFrame (t0 + 1000); emptyFrame (t0 + 2500)]
                (watching t0) in
  noFaceDuration (focus gone) = 2500
  /\ noFaceDuration
       (focus (frame_step sampleGaze (attentiveFrame (t0 + 3000)) gone)) = 0.
Proof.
  cbv zeta.
  destruct (no_face_duration_measures_absence GazeData sampleGaze
              [emptyFrame (t0 + 1000)] (emptyFrame (t0 + 2500)) (watching t0)
              (attentiveFrame (t0 + 3000)) attentive [])
    as (_ & Hgone & _ & Hback & _).
  - repeat constructor.
  - reflexivity.
  - reflexivity.
  - cbn [app] in Hgone, Hback.
    split; [rewrite Hgone; reflexivity | exact Hback].
Defined.

End LogExtras.
